(** * cwd_v2: the feedback-driven lecture builder

    A shallow embedding of [server_Project/cwd_v2/utils.py] and
    [server_Project/cwd_v2/agents.py], and the properties of the merge, the
    dispatcher, the verifier's decision policy, the revision controller and
    the coordinator's feedback loop.

    Conventions of the embedding.
    - A Python [str] is a [string]: the bytes of its UTF-8 encoding.  Byte-wise
      lexicographic order on UTF-8 is code-point order, and byte-wise substring
      search is code-point substring search, so [sorted] and [in] are modelled
      on the bytes.
    - A Python [float] is a binary64 [float] of the kernel; a Python [int] is
      a [Z].
    - A value coming out of [json.loads] is a [json] tree.
    - An exception is its class and its message ([str(e)]).
    - Library routines whose tables are not part of this repository
      ([str.lower], [str.strip], [json.loads], ...) are the fields of the
      class [PyBuiltins]; the theorems hold for every instance, and
      [Example.ascii_builtins] is the instance used to run the model on
      examples.
    - The remote model behind [GeminiClient.ask] is a [Gateway]: a transition
      function on an abstract world.  Every request sent through [ask] is
      logged in the state, so that "no regeneration attempted" is a statement
      about the log. *)

From Stdlib Require Import ZArith String Ascii List Lia Permutation.
From Stdlib Require Import PrimFloat SpecFloat FloatOps.
From stdpp Require Import base option list strings pretty gmap sorting.

Set Warnings "-register-all".
Local Open Scope Z_scope.

(* ===================================================================== *)
(** * Python values and built-ins *)
(* ===================================================================== *)

Module Py.

Inductive exn_class :=
| TypeError | ValueError | OverflowError | AttributeError | KeyError
| RemoteError.

(** An exception: its class and [str(e)]. *)
Record exn := Exception { exn_type : exn_class; exn_msg : string }.

Inductive result (A : Type) :=
| Ok (a : A)
| Raise (e : exn).
Arguments Ok {A} a.
Arguments Raise {A} e.

Definition rbind {A B} (r : result A) (k : A -> result B) : result B :=
  match r with
  | Ok a => k a
  | Raise e => Raise e
  end.

(** What [json.loads] can return. A dict is the list of its items, in
    insertion order, with pairwise-distinct keys. *)
Inductive json :=
| JNull
| JBool (b : bool)
| JInt (z : Z)
| JFloat (f : float)
| JStr (s : string)
| JArr (l : list json)
| JObj (l : list (string * json)).

Definition type_name (v : json) : string :=
  match v with
  | JNull => "NoneType"
  | JBool _ => "bool"
  | JInt _ => "int"
  | JFloat _ => "float"
  | JStr _ => "str"
  | JArr _ => "list"
  | JObj _ => "dict"
  end.

(** [bool(v)]: the truth value used by [or], [not] and [if]. *)
Definition truthy (v : json) : bool :=
  match v with
  | JNull => false
  | JBool b => b
  | JInt z => negb (z =? 0)
  | JFloat f => negb (PrimFloat.eqb f 0%float)
  | JStr s => negb (String.eqb s "")
  | JArr l => match l with [] => false | _ => true end
  | JObj l => match l with [] => false | _ => true end
  end.

(** [a or b] *)
Definition por (a b : json) : json := if truthy a then a else b.

(** [d.get(k)] on the items of a dict *)
Fixpoint dict_get (k : string) (d : list (string * json)) : option json :=
  match d with
  | [] => None
  | (k', v) :: d' => if String.eqb k' k then Some v else dict_get k d'
  end.

(** [d.get(k, dflt)] *)
Definition dict_get_default (k : string) (dflt : json) (d : list (string * json)) : json :=
  match dict_get k d with
  | Some v => v
  | None => dflt
  end.

(** [isinstance(v, str)] *)
Definition is_str (v : json) : bool :=
  match v with JStr _ => true | _ => false end.

(** [needle in hay] on strings *)
Fixpoint str_in (needle hay : string) : bool :=
  String.prefix needle hay ||
  match hay with
  | EmptyString => false
  | String _ rest => str_in needle rest
  end.

(** [float(z)] for an int: round to nearest, ties to even; an int that
    rounds beyond the largest double raises OverflowError. *)
Definition float_of_Z (z : Z) : result float :=
  match binary_normalize 53 1024 z 0 false with
  | S754_infinity _ =>
      Raise (Exception OverflowError "int too large to convert to float")
  | sf => Ok (SF2Prim sf)
  end.

(** [int(f)] for a float: truncation towards zero. *)
Definition Z_of_float (f : float) : result Z :=
  match Prim2SF f with
  | S754_zero _ => Ok 0
  | S754_finite s m e =>
      let mag := match e with
                 | Zneg p => Z.shiftr (Zpos m) (Zpos p)
                 | _ => Z.shiftl (Zpos m) e
                 end in
      Ok (if s then - mag else mag)
  | S754_infinity _ =>
      Raise (Exception OverflowError "cannot convert float infinity to integer")
  | S754_nan =>
      Raise (Exception ValueError "cannot convert float NaN to integer")
  end.

(** The library routines the repository calls and does not define. *)
Class PyBuiltins := {
  (** [s.lower()] *)
  str_lower : string -> string;
  (** [s.strip()] *)
  str_strip : string -> string;
  (** [s.splitlines()] *)
  str_splitlines : string -> list string;
  (** the characters of [s], as [for c in s] yields them *)
  str_chars : string -> list string;
  (** [repr(v)], which is [str(v)] for a value that is not a [str] *)
  py_repr : json -> string;
  (** [float(s)] and [int(s)] on a string; [None] when they raise ValueError *)
  float_of_str : string -> option float;
  int_of_str : string -> option Z;
  (** [json.loads(s)]; [None] when it raises *)
  json_loads : string -> option json;
}.

Section Conversions.
Context `{PyBuiltins}.

(** [str(v)] *)
Definition py_str (v : json) : string :=
  match v with
  | JStr s => s
  | _ => py_repr v
  end.

(** [float(v)] *)
Definition py_float (v : json) : result float :=
  match v with
  | JBool b => Ok (if b then 1%float else 0%float)
  | JInt z => float_of_Z z
  | JFloat f => Ok f
  | JStr s =>
      match float_of_str s with
      | Some f => Ok f
      | None => Raise (Exception ValueError
                         ("could not convert string to float: " +:+ py_repr v))
      end
  | _ => Raise (Exception TypeError
                  ("float() argument must be a string or a real number, not '"
                   +:+ type_name v +:+ "'"))
  end.

(** [int(v)] *)
Definition py_int (v : json) : result Z :=
  match v with
  | JBool b => Ok (if b then 1 else 0)
  | JInt z => Ok z
  | JFloat f => Z_of_float f
  | JStr s =>
      match int_of_str s with
      | Some z => Ok z
      | None => Raise (Exception ValueError
                         ("invalid literal for int() with base 10: " +:+ py_repr v))
      end
  | _ => Raise (Exception TypeError
                  ("int() argument must be a string, a bytes-like object or a real number, not '"
                   +:+ type_name v +:+ "'"))
  end.

(** [for x in v]: the items the loop visits *)
Definition py_iter (v : json) : result (list json) :=
  match v with
  | JArr l => Ok l
  | JStr s => Ok (JStr <$> str_chars s)
  | JObj d => Ok ((fun kv => JStr kv.1) <$> d)
  | _ => Raise (Exception TypeError
                  ("'" +:+ type_name v +:+ "' object is not iterable"))
  end.

(** [v.get(k, dflt)]: only a dict has the method *)
Definition py_get (v : json) (k : string) (dflt : json) : result json :=
  match v with
  | JObj d => Ok (dict_get_default k dflt d)
  | _ => Raise (Exception AttributeError
                  ("'" +:+ type_name v +:+ "' object has no attribute 'get'"))
  end.
End Conversions.

End Py.
Import Py.

Notation "'let?' x ':=' r 'in' k" := (rbind r (fun x => k))
  (at level 10, x pattern, r at level 100, k at level 200, only parsing).

(* ===================================================================== *)
(** * utils.py *)
(* ===================================================================== *)

Module Utils.

(** One [generate_content] round trip: the model name, the system
    instruction, the user text and the uploaded file's URI. *)
Record request := Request {
  req_model : string;
  req_system : string;
  req_user : string;
  req_file_uri : string;
}.

(** The provider behind the SDK. A call either raises or returns a
    response whose [text] attribute is a string, or is [None] or missing. *)
Class Gateway := {
  world : Type;
  generate_content : request -> world -> result (option string) * world;
}.

Section Client.
Context `{Gateway}.

(** The state a run threads: the provider's state and the requests sent. *)
Record state := State { gw : world; asked : list request }.

(** A computation that may call the provider and may raise. *)
Definition M (A : Type) : Type := state -> result A * state.

Definition ret {A} (a : A) : M A := fun s => (Ok a, s).

Definition bind {A B} (c : M A) (k : A -> M B) : M B :=
  fun s =>
    match c s with
    | (Ok a, s') => k a s'
    | (Raise e, s') => (Raise e, s')
    end.

(** A pure step that may raise *)
Definition lift {A} (r : result A) : M A := fun s => (r, s).

(** [try: c  except Exception as e: h e] *)
Definition try_except {A} (c : M A) (h : exn -> M A) : M A :=
  fun s =>
    match c s with
    | (Ok a, s') => (Ok a, s')
    | (Raise e, s') => h e s'
    end.

(** class GeminiClient *)
Record GeminiClient := { api_key : string; model : string }.

(** GeminiClient.ask: [getattr(resp, "text", "") or ""] *)
Definition ask (self : GeminiClient) (system_instructions user_text file_uri : string)
  : M string :=
  fun s =>
    let rq := Request (model self) system_instructions user_text file_uri in
    let '(r, w') := generate_content rq (gw s) in
    let s' := State w' (asked s ++ [rq]) in
    match r with
    | Ok (Some text) => (Ok text, s')
    | Ok None => (Ok "", s')
    | Raise e => (Raise e, s')
    end.
End Client.

(** [sorted(parts, key=lambda x: x[0])]: a stable sort on the key. An item
    goes in front of the first item whose key is not smaller, so equal keys
    keep their input order. *)
Fixpoint insert_by_key (x : string * string) (l : list (string * string))
  : list (string * string) :=
  match l with
  | [] => [x]
  | y :: l' =>
      if String.leb x.1 y.1 then x :: y :: l' else y :: insert_by_key x l'
  end.

Fixpoint sorted (parts : list (string * string)) : list (string * string) :=
  match parts with
  | [] => []
  | x :: l => insert_by_key x (sorted l)
  end.

(** [sep.join(l)] *)
Fixpoint join (sep : string) (l : list string) : string :=
  match l with
  | [] => ""
  | [x] => x
  | x :: l' => x +:+ sep +:+ join sep l'
  end.

Definition NL : string := String (ascii_of_nat 10) EmptyString.

(** the block of one section: [f"## {k}\n\n{v}"] *)
Definition section_block (kv : string * string) : string :=
  "## " +:+ kv.1 +:+ NL +:+ NL +:+ kv.2.

(** the blocks [md_join] emits, in the order it emits them *)
Definition md_sections (parts : list (string * string)) : list string :=
  section_block <$> sorted parts.

Definition md_join (title : string) (parts : list (string * string)) : string :=
  ("# " +:+ title +:+ NL +:+ NL) +:+ join (NL +:+ NL) (md_sections parts).

(** A task of the dispatcher: [(task_id, section_prompt, section_key)]. *)
Definition task : Type := string * string * string.
Definition task_key (t : task) : string := t.2.

Section Pool.
Context `{Gateway}.

(** What the thread pool decides and the code does not: the provider as
    the worker of the [i]-th submitted task sees it, and the order in which
    [as_completed] hands the futures back (each future once). *)
Record pool := Pool {
  view : nat -> state;
  completion : list nat;
}.

Definition well_formed_pool {A} (tasks : list A) (p : pool) : Prop :=
  completion p ≡ₚ seq 0 (length tasks).

(** the entry one finished future adds to [results] *)
Definition collect (key : string) (r : result string) : string * string :=
  match r with
  | Ok text => (key, text)
  | Raise e => (key, "__ERROR__: " +:+ exn_msg e)
  end.

(** [ThreadPoolExecutor(max_workers)] raises ValueError unless
    [max_workers > 0]. *)
Definition parallel_map (tasks : list task) (worker_fn : task -> M string)
    (max_workers : Z) (p : pool) : result (list (string * string)) :=
  if max_workers <=? 0 then
    Raise (Exception ValueError "max_workers must be greater than 0")
  else
    Ok (omap (fun i =>
                t ← tasks !! i;
                Some (collect (task_key t) (worker_fn t (view p i)).1))
             (completion p)).
End Pool.

End Utils.
Import Utils.

Notation "'let*' x ':=' c 'in' k" := (bind c (fun x => k))
  (at level 10, x pattern, c at level 100, k at level 200, only parsing).

(** ** utils.py: the upload side of [GeminiClient] *)

Module Files.

(** What [get_attr_safe] is given: a dict, or an object with attributes. *)
Inductive pyobj :=
| PyDict (items : list (string * json))
| PyObject (attrs : list (string * json)).

(** [get_attr_safe(obj, name, default)]: [obj.get] on a dict, [getattr] with
    a default on anything else *)
Definition get_attr_safe (obj : pyobj) (name : string) (default : json) : json :=
  match obj with
  | PyDict items => dict_get_default name default items
  | PyObject attrs => dict_get_default name default attrs
  end.

(** The file service and the clock behind [wait_for_active]:
    [client.files.get(name=...)], [time.time()] and [time.sleep(seconds)]. *)
Class Service := {
  fworld : Type;
  files_get : json -> fworld -> result pyobj * fworld;
  now : fworld -> float * fworld;
  sleep : float -> fworld -> fworld;
}.

(** [f > z] for a float and an int, compared exactly as Python does *)
Definition float_gt_Z (f : float) (z : Z) : bool :=
  match Prim2SF f with
  | S754_nan => false
  | S754_infinity negative => negb negative
  | S754_zero _ => z <? 0
  | S754_finite negative m e =>
      let '(num, den) :=
        match e with
        | Zneg p => (Zpos m, 2 ^ Zpos p)
        | _ => (Z.shiftl (Zpos m) e, 1)
        end in
      z * den <? (if negative then - num else num)
  end.

(** [get_attr_safe(refreshed, "state") == "ACTIVE"] *)
Definition is_active (refreshed : pyobj) : bool :=
  match get_attr_safe refreshed "state" JNull with
  | JStr state => String.eqb state "ACTIVE"
  | _ => false
  end.

(** How [wait_for_active] ends: it returns the refreshed object, raises
    [TimeoutError("Gemini file activation timeout")], lets an exception of
    [files.get] through, or is still polling when the fuel of the model runs
    out. *)
Inductive waited :=
| Active (refreshed : pyobj)
| TimedOut
| Failed (e : exn)
| StillPolling.

Section Methods.
Context `{Service}.

(** The [while True] loop of [wait_for_active], entered with [start] and
    [name] read. [fuel] bounds the polls the model unfolds. *)
Fixpoint poll_until_active (fuel : nat) (name : json) (start : float) (timeout_sec : Z)
    (w : fworld) : waited * fworld :=
  match fuel with
  | O => (StillPolling, w)
  | S fuel' =>
      match files_get name w with
      | (Raise e, w1) => (Failed e, w1)
      | (Ok refreshed, w1) =>
          if is_active refreshed then (Active refreshed, w1)
          else
            let '(t, w2) := now w1 in
            if float_gt_Z (PrimFloat.sub t start) timeout_sec then (TimedOut, w2)
            else poll_until_active fuel' name start timeout_sec (sleep 1 w2)
      end
  end.

(** GeminiClient.wait_for_active *)
Definition wait_for_active (fuel : nat) (file_obj : pyobj) (timeout_sec : Z) (w : fworld)
  : waited * fworld :=
  let '(start, w0) := now w in
  let name := get_attr_safe file_obj "name" JNull in
  poll_until_active fuel name start timeout_sec w0.
End Methods.

End Files.

(* ===================================================================== *)
(** * agents.py *)
(* ===================================================================== *)

(** [max(lo, min(hi, int(x)))] *)
Definition clamp (lo hi x : Z) : Z := Z.max lo (Z.min hi x).

Record SectionPlan := { key : string; prompt : string }.

(** ** class PDFStructureAnalyst *)
Module PDFStructureAnalyst.
Section Methods.
Context `{PyBuiltins} `{Gateway}.

Definition SYSTEM : string :=
  "[역할] PDF 구조 분석가. 원본 PDF를 직접 읽고 강의용 논리 단위를 설계한다." +:+ NL +:+
  "[출력 형식] 줄바꿈으로 구분된 항목 리스트만 출력. 불필요한 서론/해설 금지." +:+ NL +:+
  "[요건] 최대 8개. 각 항목은 '번호. 제목' 형식(예: '2.2. 오차 역전파')." +:+ NL +:+
  "[원칙] (1) 원문 근거 없는 가설/목차 추가 금지, (2) 중복/과세분화 지양, (3) 강의 흐름상 자연스러운 순서로 정렬," +:+ NL +:+
  "(4) 가능한 한 PDF의 실제 구조(챕터/절/소절)를 반영.".

Definition default_lines : list string := ["1. 개요"; "2. 핵심 개념"; "3. 요약"].

Definition plan_of_line (line : string) : SectionPlan :=
  {| key := line; prompt := "다음 항목에 대한 강의 텍스트를 작성하라: " +:+ line |}.

(** [[l.strip() for l in text.splitlines() if l.strip()]] *)
Definition nonblank_lines (text : string) : list string :=
  filter (fun l => l ≠ "") (str_strip <$> str_splitlines text).

Definition analyze (client : GeminiClient) (file_uri : string) : M (list SectionPlan) :=
  let user :=
    "원본 PDF를 기반으로 강의에 사용할 작업 단위를 추출하라." +:+ NL +:+
    "형식: 줄바꿈으로 구분한 항목 목록. 각 항목은 간결한 제목." in
  let* text := ask client SYSTEM user file_uri in
  let lines := nonblank_lines text in
  let lines := match lines with [] => default_lines | _ => lines end in
  ret (plan_of_line <$> lines).
End Methods.
End PDFStructureAnalyst.

(** ** class ContentCreatorWorker *)
Module ContentCreatorWorker.
Section Methods.
Context `{PyBuiltins} `{Gateway}.

Definition SYSTEM : string :=
  "[역할] 강의 자료 작성자. 요청된 섹션만 다룬다." +:+ NL +:+
  "[원칙] (1) 원문 기반 사실만 사용(환각 금지), (2) 핵심 개념을 먼저 요약 후 예시/설명 확장," +:+ NL +:+
  "(3) 불확실하거나 모호한 내용은 그대로 두고 '확인 필요' 질문을 덧붙인다," +:+ NL +:+
  "(4) 직접 인용은 사용하지 말고, 필요 시 개념만 요약해 설명한다." +:+ NL +:+
  "[형식] 마크다운. 소제목/목록/강조를 활용해 가독성 강화. 다른 섹션 내용은 참조만.".

Record t := {
  client : GeminiClient;
  file_uri : string;
  section : SectionPlan;
  length_level : Z;
  difficulty_level : Z;
}.

(** [__init__] *)
Definition new (client : GeminiClient) (file_uri : string) (section : SectionPlan)
    (length_level difficulty_level : Z) : t :=
  {| client := client; file_uri := file_uri; section := section;
     length_level := clamp 0 10 length_level;
     difficulty_level := clamp 1 5 difficulty_level |}.

Definition length_hint (self : t) : string :=
  if length_level self <=? 1 then "아주 짧게"
  else if length_level self <=? 3 then "짧게"
  else if length_level self <=? 6 then "보통 길이"
  else if length_level self <=? 8 then "자세히"
  else "매우 자세히".

Definition bullet_density (self : t) : string :=
  if length_level self <=? 2 then "핵심 bullet 1~2개, 문장 2~3줄"
  else if length_level self <=? 5 then "bullet 3~4개, 문장 4~6줄"
  else if length_level self <=? 8 then "bullet 5~7개, 소제목 포함"
  else "bullet 8개+, 소제목/예시/수식 가능".

(** the dict lookup [{1: ..., 5: ...}[self.difficulty_level]] *)
Definition difficulty_label (self : t) : result string :=
  match difficulty_level self with
  | 1 => Ok "매우 쉬움"
  | 2 => Ok "쉬움"
  | 3 => Ok "보통"
  | 4 => Ok "심화"
  | 5 => Ok "매우 심화"
  | d => Raise (Exception KeyError (pretty d))
  end.

Definition examples_guide (self : t) : string :=
  if difficulty_level self =? 1 then "아주 쉬운 비유/일상 예시 1개, 수식 없음"
  else if difficulty_level self =? 2 then "쉬운 예시 1~2개, 간단한 표/도식 가능"
  else if difficulty_level self =? 3 then "표준 예시 2개, 간단한 공식/정의 포함"
  else if difficulty_level self =? 4 then "도출 과정/반례/엣지케이스 포함, 수식/의사코드 가능"
  else "깊은 통찰/복잡 사례/증명 스케치, 수식/의사코드/복잡 비교 포함".

Definition user_text (self : t) (label : string) : string :=
  "섹션 제목: " +:+ key (section self) +:+ NL +:+
  "지시사항: " +:+ prompt (section self) +:+ NL +:+
  "길이 가이드: " +:+ length_hint self +:+ ". (" +:+ bullet_density self +:+ ")" +:+ NL +:+
  "난이도: " +:+ pretty (difficulty_level self) +:+ " (" +:+ label +:+ "). 예시/설명 가이드: "
    +:+ examples_guide self +:+ "." +:+ NL +:+
  "형식: 마크다운. 소단락, 목록, 핵심 포인트 강조.".

Definition generate (self : t) : M string :=
  let* label := lift (difficulty_label self) in
  ask (client self) SYSTEM (user_text self label) (file_uri self).
End Methods.
End ContentCreatorWorker.

(** ** class MarkdownFormatterAgent *)
Module MarkdownFormatterAgent.
Section Methods.
Context `{PyBuiltins} `{Gateway}.

Definition SYSTEM : string :=
  "[역할] 기술 편집자. 여러 섹션을 하나의 문서로 자연스럽게 연결한다." +:+ NL +:+
  "[원칙] (1) 내용 왜곡/의미 변경 금지, (2) 인용/페이지 표기 보존, (3) 중복 제거 및 용어 일관성 유지," +:+ NL +:+
  "(4) 섹션 간 전환문 추가 가능하되 사실에 근거하지 않은 새로운 주장 금지." +:+ NL +:+
  "[형식] 일관된 마크다운 레벨과 스타일 유지.".

Definition format (client : GeminiClient) (file_uri : string)
    (title : string) (parts : list (string * string)) : M string :=
  let base := md_join title parts in
  let user :=
    "다음 마크다운 초안을 자연스럽게 연결하고 일관된 스타일로 다듬어라." +:+ NL +:+
    "가능하면 섹션간 연결 문장을 추가하되 내용 왜곡은 금지." +:+ NL +:+ NL +:+
    "초안:" +:+ NL +:+ base in
  ask client SYSTEM user file_uri.
End Methods.
End MarkdownFormatterAgent.

(** ** class FeedbackFactCheckerAgent *)
Inductive status := ok | abort | needs_revision.

Global Instance status_eq_dec : EqDecision status.
Proof. solve_decision. Defined.

(** The dict [_decide] returns: ["status"] and the two ["metrics"]. *)
Record decision := {
  d_status : status;
  d_overlap_ratio : float;
  d_hallucination_count : Z;
}.

(** The feedback dict the coordinator passes around. ["raw"] and ["targets"]
    are always present; ["status"] and ["metrics"] are absent from the dict
    built after an abort, and ["metrics"] from the keyword fallback. *)
Record feedback := {
  fb_status : option status;
  fb_raw : string;
  fb_targets : json;
  fb_metrics : option (float * Z);
}.

Module FeedbackFactCheckerAgent.
Section Methods.
Context `{PyBuiltins} `{Gateway}.

Definition SYSTEM : string :=
  "[역할] 품질 검증 및 환각 방지 전문가. 초안과 원본 PDF를 교차 검증한다." +:+ NL +:+
  "[판정 기준] (1) 원문과의 내용 일치/불일치, (2) 인용/페이지 근거 유무, (3) 환각 수." +:+ NL +:+
  "[출력 제한] 반드시 JSON 한 덩어리만 출력. 다른 텍스트 금지." +:+ NL +:+
  "[형식] {decision: 'pass'|'revise'|'abort', overlap_ratio: 0..1, hallucination_count: int, reasons: string[], targets: [{key: string, notes: string}]}" +:+ NL +:+
  "[타겟 규칙] targets.key 는 제공된 섹션 키 목록(정확 일치) 중에서만 선택. 최소 필요 범위만 선정.".

(** The three fields as [_decide] reads them. *)
(** [float(payload.get("overlap_ratio", 0.0) or 0.0)] *)
Definition overlap_of (payload : json) : result float :=
  let? v := py_get payload "overlap_ratio" (JFloat 0%float) in
  py_float (por v (JFloat 0%float)).

(** [int(payload.get("hallucination_count", 0) or 0)] *)
Definition hcount_of (payload : json) : result Z :=
  let? v := py_get payload "hallucination_count" (JInt 0) in
  py_int (por v (JInt 0)).

(** [str(payload.get("decision", "")).lower()] *)
Definition decision_of (payload : json) : result string :=
  let? v := py_get payload "decision" (JStr "") in
  Ok (str_lower (py_str v)).

Definition _decide (payload : json) : result decision :=
  let? overlap := overlap_of payload in
  let? hcount := hcount_of payload in
  let? decision := decision_of payload in
  if String.eqb decision "pass" || String.eqb decision "ok" then
    Ok {| d_status := ok; d_overlap_ratio := overlap; d_hallucination_count := hcount |}
  else if String.eqb decision "abort" || (3 <=? hcount) then
    Ok {| d_status := abort; d_overlap_ratio := overlap; d_hallucination_count := hcount |}
  else if PrimFloat.leb 0.25%float overlap && (hcount <=? 1) then
    Ok {| d_status := ok; d_overlap_ratio := overlap; d_hallucination_count := hcount |}
  else
    Ok {| d_status := needs_revision; d_overlap_ratio := overlap;
          d_hallucination_count := hcount |}.

(** The keyword fallback of [verify], taken when [json.loads] raises. *)
Definition keyword_fallback (text : string) : feedback :=
  let lower := str_lower text in
  if str_in "abort" lower then
    {| fb_status := Some abort; fb_raw := text; fb_targets := JArr []; fb_metrics := None |}
  else if str_in "pass" lower || str_in "승인" text || str_in "ok" lower then
    {| fb_status := Some ok; fb_raw := text; fb_targets := JArr []; fb_metrics := None |}
  else
    {| fb_status := Some needs_revision; fb_raw := text; fb_targets := JArr [];
       fb_metrics := None |}.

(** the inner loop: the first reason that is a [str] and contains [sk] *)
Fixpoint first_reason (sk : string) (reasons : list json) : option json :=
  match reasons with
  | [] => None
  | r :: rest =>
      match r with
      | JStr s => if str_in sk s then Some r else first_reason sk rest
      | _ => first_reason sk rest
      end
  end.

(** the outer loop over [section_keys]; [reasons] is iterated once per key *)
Fixpoint match_reasons (section_keys : list string) (reasons : json)
  : result (list json) :=
  match section_keys with
  | [] => Ok []
  | sk :: keys =>
      let? rs := py_iter reasons in
      let? matched := match_reasons keys reasons in
      Ok (match first_reason sk rs with
          | Some r => JObj [("key", JStr sk); ("notes", r)] :: matched
          | None => matched
          end)
  end.

(** the targets of a parsed payload *)
Definition normalize_targets (payload : json) (section_keys : list string)
  : result json :=
  let? t := py_get payload "targets" JNull in
  let targets := por t (JArr []) in
  if truthy targets then Ok targets
  else
    let? r := py_get payload "reasons" JNull in
    let reasons := por r (JArr []) in
    let reasons := if is_str reasons then JArr [reasons] else reasons in
    let? matched := match_reasons section_keys reasons in
    Ok (JArr matched).

Definition verify_prompt (draft_md : string) (section_keys : list string) : string :=
  "다음 초안의 사실 검증을 수행하라. 원문과의 일치 여부, 인용/페이지 근거, 환각 여부를 평가하라." +:+ NL +:+
  "초안이 원문 일부를 포함하고 명백한 오류가 없다면 pass. 일부 불일치/불명확이 있으면 revise." +:+ NL +:+
  "형식: JSON 하나. {decision, overlap_ratio, hallucination_count, reasons, targets}" +:+ NL +:+
  "targets: [{key, notes}]이며 key 는 반드시 아래 섹션 키 중 하나여야 한다. 최소 필요 섹션만 지정." +:+ NL +:+ NL +:+
  "섹션 키 목록: " +:+ py_repr (JArr (JStr <$> section_keys)) +:+ NL +:+ NL +:+
  "초안:" +:+ NL +:+ draft_md.

Definition verify (client : GeminiClient) (file_uri : string)
    (draft_md : string) (section_keys : list string) : M feedback :=
  let* text := ask client SYSTEM (verify_prompt draft_md section_keys) file_uri in
  match json_loads text with
  | None => ret (keyword_fallback text)
  | Some payload =>
      let* decision := lift (_decide payload) in
      let* targets := lift (normalize_targets payload section_keys) in
      ret {| fb_status := Some (d_status decision);
             fb_raw := text;
             fb_targets := targets;
             fb_metrics := Some (d_overlap_ratio decision, d_hallucination_count decision) |}
  end.
End Methods.
End FeedbackFactCheckerAgent.

(** ** class Delegator *)
Module Delegator.
Section Methods.
Context `{PyBuiltins} `{Gateway}.

Record t := {
  client : GeminiClient;
  file_uri : string;
  length_level : Z;
  difficulty_level : Z;
}.

(** [__init__] *)
Definition new (client : GeminiClient) (file_uri : string)
    (length_level difficulty_level : Z) : t :=
  {| client := client; file_uri := file_uri;
     length_level := clamp 0 10 length_level;
     difficulty_level := clamp 1 5 difficulty_level |}.

Definition plan (self : t) : M (list SectionPlan) :=
  PDFStructureAnalyst.analyze (client self) (file_uri self).

Definition worker_for (self : t) (section : SectionPlan) : ContentCreatorWorker.t :=
  ContentCreatorWorker.new (client self) (file_uri self) section
    (length_level self) (difficulty_level self).

(** the closure [do_one] of [run_parallel_generation] *)
Definition do_one (self : t) (task : Utils.task) : M string :=
  let '(_, section_prompt, key) := task in
  let worker := worker_for self {| key := key; prompt := section_prompt |} in
  try_except (ContentCreatorWorker.generate worker)
             (fun _ => ContentCreatorWorker.generate worker).

(** [[(str(i + 1), p.prompt, p.key) for i, p in enumerate(plans)]] *)
Definition tasks_of (plans : list SectionPlan) : list Utils.task :=
  imap (fun i p => (pretty (Z.of_nat i + 1), prompt p, key p)) plans.

Definition run_parallel_generation (self : t) (plans : list SectionPlan)
    (max_workers : Z) (p : pool) : result (list (string * string)) :=
  parallel_map (tasks_of plans) (do_one self) max_workers p.

Definition format_markdown (self : t) (title : string) (parts : list (string * string))
  : M string :=
  MarkdownFormatterAgent.format (client self) (file_uri self) title parts.

(** [for x in l: body], the results collected in order *)
Fixpoint for_each {A B} (body : A -> M B) (l : list A) : M (list B) :=
  match l with
  | [] => ret []
  | x :: l' =>
      let* y := body x in
      let* ys := for_each body l' in
      ret (y :: ys)
  end.

(** the regeneration of one section: on an exception the text is kept *)
Definition regenerate (self : t) (key user text : string) : M (string * string) :=
  let worker := worker_for self {| key := key; prompt := user |} in
  let* revised_text :=
    try_except (ContentCreatorWorker.generate worker) (fun _ => ret text) in
  ret (key, revised_text).

Definition revise_prompt (key feedback_raw text : string) : string :=
  "섹션 '" +:+ key +:+ "' 내용을 다음 피드백을 반영해 수정하라." +:+ NL +:+
  "피드백:" +:+ NL +:+ feedback_raw +:+ NL +:+ NL +:+
  "현재 섹션 텍스트:" +:+ NL +:+ text.

Definition revise_parts (self : t) (parts : list (string * string))
    (feedback_raw : string) : M (list (string * string)) :=
  for_each (fun '(key, text) =>
              regenerate self key (revise_prompt key feedback_raw text) text)
           parts.

(** The first loop of [revise_selected_parts]: the keys and the notes one
    target adds. *)
Definition target_key_of (d : list (string * json)) : string :=
  str_strip (py_str (por (por (por (dict_get_default "key" JNull d)
                                   (dict_get_default "section" JNull d))
                              (dict_get_default "name" JNull d))
                         (JStr ""))).

Definition target_notes_of (d : list (string * json)) : string :=
  str_strip (py_str (por (dict_get_default "notes" JNull d) (JStr ""))).

Fixpoint extract_targets (targets : list json)
    (target_keys : list string) (notes_map : gmap string string)
  : list string * gmap string string :=
  match targets with
  | [] => (target_keys, notes_map)
  | t :: rest =>
      match t with
      | JObj d =>
          let k := target_key_of d in
          if String.eqb k "" then extract_targets rest target_keys notes_map
          else
            let notes := target_notes_of d in
            extract_targets rest (target_keys ++ [k])
              (if String.eqb notes "" then notes_map else <[k := notes]> notes_map)
      | JStr s => extract_targets rest (target_keys ++ [s]) notes_map
      | _ => extract_targets rest target_keys notes_map
      end
  end.

(** [target_keys] and [notes_map] as the first loop leaves them *)
Definition targets_of (fb : feedback) : result (list string * gmap string string) :=
  let? targets := py_iter (por (fb_targets fb) (JArr [])) in
  Ok (extract_targets targets [] ∅).

Definition selected_prompt (key feedback_raw notes text : string) : string :=
  "섹션 '" +:+ key +:+ "' 내용을 다음 피드백을 반영해 수정하라." +:+ NL +:+
  "피드백 원본:" +:+ NL +:+ feedback_raw +:+ NL +:+
  "해당 섹션 메모: " +:+ notes +:+ NL +:+ NL +:+
  "현재 섹션 텍스트:" +:+ NL +:+ text.

Definition revise_selected_parts (self : t) (parts : list (string * string))
    (fb : feedback) : M (list (string * string)) :=
  let* extracted := lift (targets_of fb) in
  let '(target_keys, notes_map) := extracted in
  match target_keys with
  | [] => revise_parts self parts (fb_raw fb)
  | _ =>
      for_each (fun '(key, text) =>
                  if bool_decide (key ∈ target_keys) then
                    let notes := default "" (notes_map !! key) in
                    regenerate self key
                      (selected_prompt key (fb_raw fb) notes text) text
                  else ret (key, text))
               parts
  end.
End Methods.
End Delegator.

(** ** class Coordinator *)
Module Coordinator.
Section Methods.
Context `{PyBuiltins} `{Gateway}.

Record t := {
  title : string;
  api_key : string;
  model : string;
  max_feedback_loops : Z;
  length_level : Z;
  difficulty_level : Z;
  formatting : string;
}.

(** [__init__]; the environment lookup of the API key is left to the caller *)
Definition new (title api_key model : string)
    (max_feedback_loops length_level difficulty_level : Z) (formatting : json) : t :=
  let f := str_lower (py_str formatting) in
  {| title := title; api_key := api_key; model := model;
     max_feedback_loops := Z.max 0 max_feedback_loops;
     length_level := clamp 0 10 length_level;
     difficulty_level := clamp 1 5 difficulty_level;
     formatting := if String.eqb f "none" || String.eqb f "light" then f else "light" |}.

Definition STRICT_MSG : string :=
  "STRICT_REWRITE: 원문 직접 근거(페이지/직접 인용) 없는 내용은 모두 제거/비워둘 것. " +:+
  "추론/외삽 금지. 불확실 부분은 '확인 필요'로 표시하고 질문 제시.".

Definition FORCED_NOTE : string := "치명적 환각: 근거 있는 내용만 유지/복원".

(** the feedback the loop substitutes for an abort verdict *)
Definition forced_feedback (fb : feedback) (parts : list (string * string)) : feedback :=
  {| fb_status := None;
     fb_raw := fb_raw fb +:+ NL +:+ STRICT_MSG;
     fb_targets :=
       JArr ((fun kv => JObj [("key", JStr kv.1); ("notes", JStr FORCED_NOTE)]) <$> parts);
     fb_metrics := None |}.

(** the merge step, by formatting mode *)
Definition merge (self : t) (delegator : Delegator.t) (parts : list (string * string))
  : M string :=
  if String.eqb (formatting self) "none" then ret (md_join (title self) parts)
  else Delegator.format_markdown delegator (title self) parts.

(** What the loop leaves behind: the sections, the draft written to the
    output file, and the loop counter. *)
Record outcome := {
  out_parts : list (string * string);
  out_md : string;
  out_loops : Z;
}.

(** The [while True] loop of [run_build], entered with the sections of the
    parallel generation, their first merge and [loops = 0]. [fuel] bounds
    the number of iterations the model unfolds; [None] means the fuel ran
    out. The upload of the PDF before the loop and the write of the output
    file after it are outside the model. *)
Fixpoint feedback_loop (fuel : nat) (self : t) (delegator : Delegator.t)
    (parts : list (string * string)) (md : string) (loops : Z) : M (option outcome) :=
  match fuel with
  | O => ret None
  | S fuel' =>
      let section_keys := parts.*1 in
      let* feedback :=
        FeedbackFactCheckerAgent.verify (Delegator.client delegator)
          (Delegator.file_uri delegator) md section_keys in
      let feedback :=
        if bool_decide (fb_status feedback = Some abort)
        then forced_feedback feedback parts else feedback in
      if bool_decide (fb_status feedback = Some ok) then
        ret (Some {| out_parts := parts; out_md := md; out_loops := loops |})
      else
        let loops := loops + 1 in
        if max_feedback_loops self <? loops then
          ret (Some {| out_parts := parts; out_md := md; out_loops := loops |})
        else
          let* parts :=
            (if truthy (fb_targets feedback)
             then Delegator.revise_selected_parts delegator parts feedback
             else Delegator.revise_parts delegator parts (fb_raw feedback)) in
          let* md := merge self delegator parts in
          feedback_loop fuel' self delegator parts md loops
  end.

(** the size of the thread pool [run_build] asks for:
    [min(6, max(2, len(plans)))] *)
Definition pool_size (plans : list SectionPlan) : Z :=
  Z.min 6 (Z.max 2 (Z.of_nat (length plans))).

(** the iterations the loop can need: one check, then one per revision *)
Definition enough_fuel (self : t) : nat := S (Z.to_nat (max_feedback_loops self)).

End Methods.
End Coordinator.

(* ===================================================================== *)
(** * main.py *)
(* ===================================================================== *)

Module Main.
Section Methods.
Context `{PyBuiltins} `{Gateway}.

(** the namespace [parse_args] returns for the [build] command *)
Record args := {
  command : string;
  pdf_path : string;
  title : string;
  api_key : string;
  model : string;
  max_feedback_loops : Z;
  length_level : Z;
  difficulty_level : Z;
  formatting : string;
}.

(** the [Coordinator] that [build_command] constructs from the arguments
    [main] passes to it: [main] clamps the two levels and normalises the
    formatting mode before the call, and [Coordinator.__init__] does it
    again *)
Definition coordinator_of (a : args) : Coordinator.t :=
  let f := str_lower (formatting a) in
  Coordinator.new (title a) (api_key a) (model a) (max_feedback_loops a)
    (clamp 0 10 (length_level a)) (clamp 1 5 (difficulty_level a))
    (JStr (if String.eqb f "none" || String.eqb f "light" then f else "light")).
End Methods.
End Main.

(* ===================================================================== *)
(** * An instance to run the model on examples *)
(* ===================================================================== *)

(** [ascii_builtins] implements the library routines on ASCII text. It agrees
    with CPython on the inputs the examples below use: ASCII letters for
    [lower], ASCII white space for [strip], line feeds and carriage returns
    for [splitlines], [repr] of [None], booleans, ints, quote-free strings and
    lists and dicts of these, plain decimal literals of at most fifteen digits
    for [float], signed digit strings for [int]. [json.loads] decodes the
    sample response [abort_response] and no other text. *)
Module Example.

Definition lower_ascii (c : ascii) : ascii :=
  let n := nat_of_ascii c in
  if ((65 <=? n) && (n <=? 90))%nat then ascii_of_nat (n + 32) else c.

Fixpoint lower (s : string) : string :=
  match s with
  | EmptyString => EmptyString
  | String c r => String (lower_ascii c) (lower r)
  end.

Definition is_space (c : ascii) : bool :=
  let n := nat_of_ascii c in
  (((9 <=? n) && (n <=? 13)) || ((28 <=? n) && (n <=? 32)))%nat.

Fixpoint lstrip (s : string) : string :=
  match s with
  | EmptyString => EmptyString
  | String c r => if is_space c then lstrip r else s
  end.

Fixpoint rstrip (s : string) : string :=
  match s with
  | EmptyString => EmptyString
  | String c r =>
      match rstrip r with
      | EmptyString => if is_space c then EmptyString else String c EmptyString
      | r' => String c r'
      end
  end.

Definition strip (s : string) : string := lstrip (rstrip s).

Definition is_break (c : ascii) : bool :=
  let n := nat_of_ascii c in
  (((10 <=? n) && (n <=? 13)) || ((28 <=? n) && (n <=? 30)))%nat.

(** [cur] is the line being read, last character first *)
Fixpoint splitlines_from (cur : string) (s : string) : list string :=
  match s with
  | EmptyString =>
      match cur with EmptyString => [] | _ => [String.rev cur] end
  | String c r =>
      if is_break c then
        String.rev cur ::
          match r with
          | String c' r' =>
              if ((nat_of_ascii c =? 13) && (nat_of_ascii c' =? 10))%nat
              then splitlines_from EmptyString r'
              else splitlines_from EmptyString r
          | EmptyString => []
          end
      else splitlines_from (String c cur) r
  end.

Definition splitlines (s : string) : list string := splitlines_from EmptyString s.

(** a byte [10xxxxxx] continues the character before it *)
Definition is_continuation (c : ascii) : bool :=
  let n := nat_of_ascii c in ((128 <=? n) && (n <=? 191))%nat.

Fixpoint chars (s : string) : list string :=
  match s with
  | EmptyString => []
  | String c r =>
      match chars r with
      | String c' x :: rest =>
          if is_continuation c' then String c (String c' x) :: rest
          else String c EmptyString :: String c' x :: rest
      | l => String c EmptyString :: l
      end
  end.

Fixpoint repr (v : json) : string :=
  match v with
  | JNull => "None"
  | JBool b => if b then "True" else "False"
  | JInt z => pretty z
  | JFloat _ => "<float>"
  | JStr s => "'" +:+ s +:+ "'"
  | JArr l => "[" +:+ join ", " (map repr l) +:+ "]"
  | JObj d =>
      "{" +:+ join ", " (map (fun kv => "'" +:+ fst kv +:+ "': " +:+ repr (snd kv)) d)
      +:+ "}"
  end.

Definition digit_of (c : ascii) : option Z :=
  let n := nat_of_ascii c in
  if ((48 <=? n) && (n <=? 57))%nat then Some (Z.of_nat n - 48) else None.

(** the value of a digit string read after the digits worth [acc] *)
Fixpoint digits_from (acc : Z) (s : string) : option Z :=
  match s with
  | EmptyString => Some acc
  | String c r =>
      match digit_of c with
      | Some d => digits_from (10 * acc + d) r
      | None => None
      end
  end.

Definition digits (s : string) : option Z :=
  match s with
  | EmptyString => None
  | _ => digits_from 0 s
  end.

Definition signed {A} (parse : string -> option A) (neg : A -> A) (s : string)
  : option A :=
  match s with
  | String "-" r => neg <$> parse r
  | String "+" r => parse r
  | _ => parse s
  end.

Definition parse_int (s : string) : option Z := signed digits Z.opp (strip s).

(** the integer part and the fraction of an unsigned decimal literal *)
Fixpoint split_at_dot (whole : string) (s : string) : string * option string :=
  match s with
  | EmptyString => (String.rev whole, None)
  | String "." r => (String.rev whole, Some r)
  | String c r => split_at_dot (String c whole) r
  end.

(** [num / 10^k], both exact doubles when [num] has at most fifteen digits *)
Definition decimal (s : string) : option float :=
  let '(whole, frac) := split_at_dot EmptyString s in
  let frac := default EmptyString frac in
  if (15 <? String.length whole + String.length frac)%nat then None
  else
    num ← digits (whole +:+ frac);
    Some (PrimFloat.div (SF2Prim (binary_normalize 53 1024 num 0 false))
            (SF2Prim (binary_normalize 53 1024 (10 ^ Z.of_nat (String.length frac)) 0 false))).

Definition parse_float (s : string) : option float :=
  signed decimal PrimFloat.opp (strip s).

Definition DQ : string := String (ascii_of_nat 34) EmptyString.
Definition quoted (s : string) : string := DQ +:+ s +:+ DQ.

(** the response of the specification's abort scenario *)
Definition abort_response : string :=
  "{" +:+ quoted "decision" +:+ ":" +:+ quoted "abort" +:+ ","
      +:+ quoted "hallucination_count" +:+ ":5,"
      +:+ quoted "targets" +:+ ":[]}".

Definition abort_payload : json :=
  JObj [("decision", JStr "abort"); ("hallucination_count", JInt 5); ("targets", JArr [])].

Definition loads (s : string) : option json :=
  if String.eqb s abort_response then Some abort_payload else None.

Global Instance ascii_builtins : PyBuiltins := {|
  str_lower := lower;
  str_strip := strip;
  str_splitlines := splitlines;
  str_chars := chars;
  py_repr := repr;
  float_of_str := parse_float;
  int_of_str := parse_int;
  json_loads := loads;
|}.

(** A provider that plays back a script: each call takes the next response;
    past the end of the script it raises. *)
Global Instance scripted : Gateway := {|
  world := list (result (option string));
  generate_content := fun _ w =>
    match w with
    | [] => (Raise (Exception RemoteError "no response left"), [])
    | r :: w' => (r, w')
    end;
|}.

Definition says (text : string) : result (option string) := Ok (Some text).
Definition fails (msg : string) : result (option string) :=
  Raise (Exception RemoteError msg).

Definition start (script : list (result (option string))) : state :=
  {| gw := script; asked := [] |}.

(** a verdict that says pass and counts five hallucinations *)
Definition pass_with_five : json :=
  JObj [("decision", JStr "pass"); ("overlap_ratio", JFloat 0.5);
        ("hallucination_count", JInt 5)].

(** a verdict that says revise, with half the draft grounded and one
    hallucination *)
Definition revise_in_band : json :=
  JObj [("decision", JStr "revise"); ("overlap_ratio", JFloat 0.5);
        ("hallucination_count", JInt 1)].

(** a verdict that says revise and counts four hallucinations *)
Definition revise_with_four : json :=
  JObj [("decision", JStr "revise"); ("overlap_ratio", JFloat 0.5);
        ("hallucination_count", JInt 4)].

(** three planned sections and a pool: the first unit succeeds at once, the
    second fails twice, the third succeeds on its retry; the futures come
    back in the order third, first, second *)
Definition plans3 : list SectionPlan :=
  [{| key := "A"; prompt := "write A" |};
   {| key := "B"; prompt := "write B" |};
   {| key := "C"; prompt := "write C" |}].

Definition pool3 : pool :=
  {| view := fun i =>
       match i with
       | 0%nat => start [says "alpha"]
       | 1%nat => start [fails "quota"; fails "quota again"]
       | _ => start [fails "timeout"; says "gamma"]
       end;
     completion := [2%nat; 0%nat; 1%nat] |}.

Definition parts3 : list (string * string) := [("A", "a0"); ("B", "b0"); ("C", "c0")].
Definition parts2 : list (string * string) := [("A", "a0"); ("B", "b0")].

Definition feedback_with (targets : list json) : feedback :=
  {| fb_status := Some needs_revision; fb_raw := "raw feedback";
     fb_targets := JArr targets; fb_metrics := None |}.

(** a verdict that names section A *)
Definition names_A : feedback :=
  feedback_with [JObj [("key", JStr "A"); ("notes", JStr "cite the source")]].

(** a verdict with one target that carries a note and no key *)
Definition names_nothing : feedback :=
  feedback_with [JObj [("notes", JStr "unsupported claim")]].

(** a verdict that names a section that does not exist *)
Definition names_Z : feedback := feedback_with [JStr "Z"].

Definition client0 : GeminiClient := {| api_key := "k"; model := "gemini-2.5-flash" |}.
Definition delegator0 : Delegator.t := Delegator.new client0 "uri" 5 3.

(** coordinators that merge without polishing, with no revision and with two *)
Definition coordinator0 : Coordinator.t :=
  Coordinator.new "T" "k" "gemini-2.5-flash" 0 5 3 (JStr "none").
Definition coordinator2 : Coordinator.t :=
  Coordinator.new "T" "k" "gemini-2.5-flash" 2 5 3 (JStr "none").

End Example.

(** Builtins that decode a given table of responses and agree with
    [Example.ascii_builtins] otherwise: every text outside the table is
    treated as not JSON. A definition, not an instance: it is passed by name
    where an example needs a decoded payload. *)
Module Samples.

Fixpoint lookup_text (table : list (string * json)) (s : string) : option json :=
  match table with
  | [] => None
  | (text, v) :: rest => if String.eqb text s then Some v else lookup_text rest s
  end.

Definition builtins_with (table : list (string * json)) : PyBuiltins := {|
  str_lower := Example.lower;
  str_strip := Example.strip;
  str_splitlines := Example.splitlines;
  str_chars := Example.chars;
  py_repr := Example.repr;
  float_of_str := Example.parse_float;
  int_of_str := Example.parse_int;
  json_loads := lookup_text table;
|}.

(** the text [[]] and a verdict that names section B, as decoded values *)
Definition empty_list_text : string := "[]".

Definition names_B_text : string :=
  "{" +:+ Example.quoted "decision" +:+ ":" +:+ Example.quoted "revise" +:+ ","
      +:+ Example.quoted "targets" +:+ ":[" +:+ Example.quoted "B" +:+ "]}".

Definition names_B_payload : json :=
  JObj [("decision", JStr "revise"); ("targets", JArr [JStr "B"])].

(** a verdict whose reasons field is a number *)
Definition numeric_reasons_text : string :=
  "{" +:+ Example.quoted "decision" +:+ ":" +:+ Example.quoted "revise" +:+ ","
      +:+ Example.quoted "reasons" +:+ ":7}".

Definition numeric_reasons_payload : json :=
  JObj [("decision", JStr "revise"); ("reasons", JInt 7)].

(** a run in which the first verdict asks for revision and names no target,
    both sections are regenerated, and the second verdict approves *)
Definition revision_script_responses : list (result (option string)) :=
  [Example.says "Needs more citations"; Example.says "a1"; Example.says "b1";
   Example.says "fine, pass"].

Definition feedback_with_targets (targets : json) : feedback :=
  {| fb_status := Some needs_revision; fb_raw := "raw feedback";
     fb_targets := targets; fb_metrics := None |}.

Definition table : list (string * json) :=
  [(empty_list_text, JArr []);
   (names_B_text, names_B_payload);
   (numeric_reasons_text, numeric_reasons_payload)].

Definition builtins : PyBuiltins := builtins_with table.

(** A file service that plays back a script of [files.get] results, with a
    clock that only [sleep] moves. *)
Definition scripted_files : Files.Service := {|
  Files.fworld := list (result Files.pyobj) * float;
  Files.files_get := fun _ w =>
    match w.1 with
    | [] => (Raise (Exception RemoteError "no response left"), w)
    | r :: rest => (r, (rest, w.2))
    end;
  Files.now := fun w => (w.2, w);
  Files.sleep := fun seconds w => (w.1, PrimFloat.add w.2 seconds);
|}.

Definition file_in_state (state : string) : Files.pyobj :=
  Files.PyObject [("name", JStr "files/abc"); ("uri", JStr "uri"); ("state", JStr state)].

End Samples.

(* ===================================================================== *)
(** * The vocabulary of the properties *)
(* ===================================================================== *)

Section Vocabulary.
Context `{PyBuiltins} `{Gateway}.
Import Delegator.

(** the order on identities: byte-wise lexicographic *)
Definition key_lt (a b : string) : Prop := String.compare a b = Lt.
Definition key_le (a b : string) : Prop := String.leb a b = true.

(** the order [sorted] works with: pairs compared by their identity *)
Definition by_key_le (x y : string * string) : Prop := key_le x.1 y.1.
Definition by_key_lt (x y : string * string) : Prop := key_lt x.1 y.1.

(** [worker.generate()] gives [out], at once or on the one retry *)
Definition generates (w : ContentCreatorWorker.t) (s : state) (out : string) : Prop :=
  (ContentCreatorWorker.generate w s).1 = Ok out \/
  exists e s', ContentCreatorWorker.generate w s = (Raise e, s') /\
               (ContentCreatorWorker.generate w s').1 = Ok out.

(** the loop body of [revise_parts] *)
Definition full_body (self : Delegator.t) (raw : string) (kv : string * string)
  : M (string * string) :=
  let '(key, text) := kv in regenerate self key (revise_prompt key raw text) text.

(** the loop body of the second loop of [revise_selected_parts] *)
Definition selected_body (self : Delegator.t) (raw : string) (target_keys : list string)
    (notes_map : gmap string string) (kv : string * string) : M (string * string) :=
  let '(key, text) := kv in
  if bool_decide (key ∈ target_keys) then
    regenerate self key
      (selected_prompt key raw (default "" (notes_map !! key)) text) text
  else ret (key, text).

(** a loop body that handles its own exceptions and keeps the identity *)
Definition keeps_key (body : string * string -> M (string * string)) : Prop :=
  forall x s, exists y s', body x s = (Ok y, s') /\ y.1 = x.1.

(** the requests of a log addressed to the verifier, and to the section
    generator *)
Definition verifications (l : list request) : nat :=
  length (filter (fun r => req_system r = FeedbackFactCheckerAgent.SYSTEM) l).
Definition regenerations (l : list request) : nat :=
  length (filter (fun r => req_system r = ContentCreatorWorker.SYSTEM) l).

(** the one request [worker.generate()] sends; a worker built by the
    delegator always has a difficulty label *)
Definition request_of (w : ContentCreatorWorker.t) : request :=
  Request (Utils.model (ContentCreatorWorker.client w)) ContentCreatorWorker.SYSTEM
    (ContentCreatorWorker.user_text w
       (match ContentCreatorWorker.difficulty_label w with
        | Ok label => label
        | Raise _ => ""
        end))
    (ContentCreatorWorker.file_uri w).

(** the requests full revision and targeted revision send for one section *)
Definition full_request (self : Delegator.t) (raw : string) (kv : string * string)
  : request :=
  request_of (Delegator.worker_for self
                {| key := kv.1; prompt := Delegator.revise_prompt kv.1 raw kv.2 |}).

Definition selected_request (self : Delegator.t) (raw notes : string)
    (kv : string * string) : request :=
  request_of (Delegator.worker_for self
                {| key := kv.1;
                   prompt := Delegator.selected_prompt kv.1 raw notes kv.2 |}).

(** the request [verify] sends *)
Definition verify_request (d : Delegator.t) (md : string) (keys : list string) : request :=
  Request (Utils.model (Delegator.client d)) FeedbackFactCheckerAgent.SYSTEM
    (FeedbackFactCheckerAgent.verify_prompt md keys) (Delegator.file_uri d).

(** the revision of one iteration: targeted when the feedback names targets *)
Definition revise_step (d : Delegator.t) (parts : list (string * string)) (fb : feedback)
  : M (list (string * string)) :=
  if truthy (fb_targets fb) then revise_selected_parts d parts fb
  else revise_parts d parts (fb_raw fb).

(** an identity as the planner makes them: a stripped, non-empty line *)
Definition stable_key (k : string) : Prop := str_strip k = k /\ k <> "".

(** the target the loop forces for one section after an abort *)
Definition forced_target (kv : string * string) : json :=
  JObj [("key", JStr kv.1); ("notes", JStr Coordinator.FORCED_NOTE)].

(** the note that reaches the prompts of a forced revision *)
Definition forced_note : string := str_strip Coordinator.FORCED_NOTE.

(** [notes_map] once the forced targets of [keys] are read *)
Definition add_notes (m : gmap string string) (keys : list string) : gmap string string :=
  if String.eqb forced_note "" then m
  else foldl (fun m k => <[k := forced_note]> m) m keys.

(** the regeneration an abort forces for one section *)
Definition strict_body (d : Delegator.t) (raw : string) (kv : string * string)
  : M (string * string) :=
  regenerate d kv.1 (selected_prompt kv.1 raw forced_note kv.2) kv.2.



(** the requests of a log addressed to the formatter *)
Definition polishes (l : list request) : nat :=
  length (filter (fun r => req_system r = MarkdownFormatterAgent.SYSTEM) l).

End Vocabulary.

(* ===================================================================== *)
(** * Properties *)
(* ===================================================================== *)

(** ** The verifier's decision policy *)

Section DecisionPolicy.
Context `{PyBuiltins}.
Import FeedbackFactCheckerAgent.

(** [_decide] raises exactly when one of its three reads raises; otherwise
    its answer is a function of the three values read. *)
Lemma decide_reads payload o h d :
  overlap_of payload = Ok o ->
  hcount_of payload = Ok h ->
  decision_of payload = Ok d ->
  _decide payload =
    Ok {| d_status :=
            if String.eqb d "pass" || String.eqb d "ok" then ok
            else if String.eqb d "abort" || (3 <=? h) then abort
            else if PrimFloat.leb 0.25 o && (h <=? 1) then ok
            else needs_revision;
          d_overlap_ratio := o;
          d_hallucination_count := h |}.
Proof.
  intros Ho Hh Hd. unfold _decide. rewrite Ho, Hh, Hd. simpl.
  repeat case_match; reflexivity.
Qed.

Lemma eqb_false_of_ne (a b : string) : a <> b -> String.eqb a b = false.
Proof. intros. by apply String.eqb_neq. Qed.

(** C1, as amended. For a payload whose hallucination count, as [_decide]
    reads it, is at least 3, the policy yields abort whatever the overlap
    ratio is, unless the lower-cased decision field is "pass" or "ok": the
    test for those two words comes first and yields ok. *)
Theorem decide_hallucination_ceiling payload o h d :
  overlap_of payload = Ok o ->
  hcount_of payload = Ok h ->
  decision_of payload = Ok d ->
  3 <= h ->
  exists dec, _decide payload = Ok dec /\
    (d <> "pass" -> d <> "ok" -> d_status dec = abort) /\
    (d = "pass" \/ d = "ok" -> d_status dec = ok).
Proof.
  intros Ho Hh Hd Hge. eexists. split; [by apply decide_reads|]. simpl. split.
  - intros Hp Hk. rewrite (eqb_false_of_ne _ _ Hp), (eqb_false_of_ne _ _ Hk). simpl.
    replace (3 <=? h) with true by (symmetry; by apply Z.leb_le).
    by rewrite orb_true_r.
  - intros [-> | ->]; reflexivity.
Qed.

(** C2. For a payload whose lower-cased decision field is none of "pass",
    "ok" and "abort", an overlap ratio of at least 0.25 together with at most
    one hallucination yields ok. *)
Theorem decide_lenient_band payload o h d :
  overlap_of payload = Ok o ->
  hcount_of payload = Ok h ->
  decision_of payload = Ok d ->
  d <> "pass" -> d <> "ok" -> d <> "abort" ->
  PrimFloat.leb 0.25 o = true ->
  h <= 1 ->
  _decide payload =
    Ok {| d_status := ok; d_overlap_ratio := o; d_hallucination_count := h |}.
Proof.
  intros Ho Hh Hd Hp Hk Ha Hov Hle.
  rewrite (decide_reads _ _ _ _ Ho Hh Hd).
  rewrite (eqb_false_of_ne _ _ Hp), (eqb_false_of_ne _ _ Hk), (eqb_false_of_ne _ _ Ha), Hov.
  replace (3 <=? h) with false by (symmetry; apply Z.leb_gt; lia).
  replace (h <=? 1) with true by (symmetry; by apply Z.leb_le).
  reflexivity.
Qed.

End DecisionPolicy.

(** C1, the claim as stated fails: the payload says pass and counts five
    hallucinations, and the policy yields ok. *)
Lemma decide_pass_overrides_ceiling :
  FeedbackFactCheckerAgent.hcount_of Example.pass_with_five = Ok 5 /\
  FeedbackFactCheckerAgent._decide Example.pass_with_five =
    Ok {| d_status := ok; d_overlap_ratio := 0.5; d_hallucination_count := 5 |}.
Proof. split; reflexivity. Qed.

Lemma decide_hallucination_ceiling_witness :
  exists dec, FeedbackFactCheckerAgent._decide Example.revise_with_four = Ok dec /\
    d_status dec = abort.
Proof.
  destruct (decide_hallucination_ceiling Example.revise_with_four 0.5 4 "revise")
    as (dec & Hdec & Habort & _); [reflexivity..|lia|].
  exists dec. split; [exact Hdec|]. apply Habort; discriminate.
Defined.

Lemma decide_lenient_band_witness :
  FeedbackFactCheckerAgent._decide Example.revise_in_band =
    Ok {| d_status := ok; d_overlap_ratio := 0.5; d_hallucination_count := 1 |}.
Proof.
  apply (decide_lenient_band Example.revise_in_band 0.5 1 "revise");
    try reflexivity; try discriminate; lia.
Defined.

Section KeywordFallback.
Context `{PyBuiltins} `{Gateway}.
Import FeedbackFactCheckerAgent.

(** C9. When the response text is not JSON, the verdict comes from keyword
    scanning alone: "abort" in the lower-cased text gives abort; otherwise
    "pass" or "ok" in the lower-cased text, or the approval token in the
    text, gives ok; otherwise needs_revision. The targets are empty in the
    three cases. *)
Theorem verify_keyword_fallback client uri draft keys s text s1 :
  ask client SYSTEM (verify_prompt draft keys) uri s = (Ok text, s1) ->
  json_loads text = None ->
  verify client uri draft keys s =
    (Ok {| fb_status :=
             Some (if str_in "abort" (str_lower text) then abort
                   else if str_in "pass" (str_lower text) || str_in "승인" text
                           || str_in "ok" (str_lower text) then ok
                   else needs_revision);
           fb_raw := text;
           fb_targets := JArr [];
           fb_metrics := None |}, s1).
Proof.
  intros Hask Hjson. unfold verify, bind. rewrite Hask, Hjson.
  unfold ret, keyword_fallback. repeat case_match; reflexivity.
Qed.

End KeywordFallback.

Lemma verify_keyword_fallback_witness :
  (FeedbackFactCheckerAgent.verify Example.client0 "uri" "draft" ["A"]
     (Example.start [Example.says "Needs more citations"])).1 =
    Ok {| fb_status := Some needs_revision; fb_raw := "Needs more citations";
          fb_targets := JArr []; fb_metrics := None |}.
Proof.
  erewrite (verify_keyword_fallback Example.client0 "uri" "draft" ["A"] _
              "Needs more citations"); reflexivity.
Defined.

(** ** The merge *)

Section Merge.

Lemma ascii_compare_trans a b c :
  Ascii.compare a b = Lt -> Ascii.compare b c = Lt -> Ascii.compare a c = Lt.
Proof.
  unfold Ascii.compare. rewrite !N.compare_lt_iff. apply N.lt_trans.
Qed.

Lemma ascii_compare_refl a : Ascii.compare a a = Eq.
Proof. unfold Ascii.compare. apply N.compare_refl. Qed.

Lemma key_lt_trans a b c : key_lt a b -> key_lt b c -> key_lt a c.
Proof.
  unfold key_lt. revert b c.
  induction a as [|x a IH]; intros [|y b] [|z c]; simpl; try congruence.
  destruct (Ascii.compare x y) eqn:Hxy; try discriminate.
  - apply Ascii.compare_eq_iff in Hxy as ->.
    destruct (Ascii.compare y z) eqn:Hyz; try discriminate; eauto.
  - intros _. destruct (Ascii.compare y z) eqn:Hyz; try discriminate.
    + apply Ascii.compare_eq_iff in Hyz as <-. by rewrite Hxy.
    + intros _. by rewrite (ascii_compare_trans _ _ _ Hxy Hyz).
Qed.

Lemma string_compare_refl a : String.compare a a = Eq.
Proof.
  induction a as [|x a IH]; simpl; [done|]. by rewrite ascii_compare_refl.
Qed.

Lemma key_lt_irrefl a : ~ key_lt a a.
Proof. unfold key_lt. by rewrite string_compare_refl. Qed.

Lemma key_le_lt_or_eq a b : key_le a b <-> key_lt a b \/ a = b.
Proof.
  unfold key_le, key_lt, String.leb. split.
  - destruct (String.compare a b) eqn:E; try discriminate; auto.
    right. by apply String.compare_eq_iff.
  - intros [-> | ->]; [done|]. by rewrite string_compare_refl.
Qed.

Lemma key_le_trans a b c : key_le a b -> key_le b c -> key_le a c.
Proof.
  rewrite !key_le_lt_or_eq. intros [Hab | ->] [Hbc | ->]; eauto using key_lt_trans.
Qed.

Lemma key_le_total a b : key_le a b \/ key_le b a.
Proof. apply String.leb_total. Qed.

Lemma insert_by_key_perm x l : insert_by_key x l ≡ₚ x :: l.
Proof.
  induction l as [|y l IH]; simpl; [done|].
  destruct (String.leb x.1 y.1); [done|].
  rewrite IH. apply Permutation_swap.
Qed.

Lemma sorted_perm l : sorted l ≡ₚ l.
Proof.
  induction l as [|x l IH]; simpl; [done|].
  by rewrite insert_by_key_perm, IH.
Qed.

Lemma insert_by_key_sorted x l :
  StronglySorted by_key_le l -> StronglySorted by_key_le (insert_by_key x l).
Proof.
  induction 1 as [|y l Hl IH Hy]; simpl.
  - repeat constructor.
  - destruct (String.leb x.1 y.1) eqn:E.
    + constructor; [by constructor|]. constructor; [exact E|].
      eapply Forall_impl; [exact Hy|]. intros z Hz.
      eapply key_le_trans; [exact E|exact Hz].
    + constructor; [exact IH|]. rewrite insert_by_key_perm. constructor; [|exact Hy].
      destruct (key_le_total x.1 y.1) as [Hxy|Hyx]; [|exact Hyx].
      unfold key_le in Hxy. congruence.
Qed.

Lemma sorted_sorted l : StronglySorted by_key_le (sorted l).
Proof.
  induction l as [|x l IH]; simpl; [constructor|]. by apply insert_by_key_sorted.
Qed.

(** with pairwise-distinct identities a sorted list is strictly ascending *)
Lemma sorted_strict l :
  NoDup l.*1 -> StronglySorted by_key_le l -> StronglySorted by_key_lt l.
Proof.
  intros Hnd. induction 1 as [|x l Hl IH Hx]; [constructor|].
  simpl in Hnd. apply NoDup_cons in Hnd as [Hnotin Hnd].
  constructor; [by apply IH|].
  apply Forall_forall. intros y Hy.
  rewrite Forall_forall in Hx. specialize (Hx y Hy).
  apply key_le_lt_or_eq in Hx as [Hlt | Heq]; [exact Hlt|].
  exfalso. apply Hnotin. rewrite Heq. apply list_elem_of_fmap. eauto.
Qed.

Lemma sorted_unique l1 l2 :
  NoDup l1.*1 -> l1 ≡ₚ l2 -> sorted l1 = sorted l2.
Proof.
  intros Hnd Hperm.
  assert (Hs : forall l, NoDup l.*1 -> StronglySorted by_key_lt (sorted l)).
  { intros l Hl. apply sorted_strict; [|apply sorted_sorted].
    by rewrite sorted_perm. }
  apply (StronglySorted_unique_strong by_key_lt).
  - intros x y _ _ Hxy Hyx. exfalso.
    eapply key_lt_irrefl, key_lt_trans; [exact Hxy|exact Hyx].
  - by apply Hs.
  - apply Hs. by rewrite <- Hperm.
  - by rewrite !sorted_perm.
Qed.

Lemma StronglySorted_fmap_fst l :
  StronglySorted by_key_lt l -> StronglySorted key_lt l.*1.
Proof.
  induction 1 as [|x l Hl IH Hx]; simpl; constructor; [exact IH|].
  apply Forall_fmap. exact Hx.
Qed.

(** C3. The unpolished merge of a section set with pairwise-distinct
    identities does not depend on the order the sections come in: two calls
    on the same sections, in any two orders, return the same string. The
    blocks it emits are those of the sections taken in strictly ascending
    lexicographic order of identity. *)
Theorem md_join_reproducible title parts1 parts2 :
  NoDup parts1.*1 ->
  parts1 ≡ₚ parts2 ->
  md_join title parts1 = md_join title parts2 /\
  exists ordered,
    ordered ≡ₚ parts2 /\
    StronglySorted key_lt ordered.*1 /\
    md_sections parts2 = section_block <$> ordered /\
    md_join title parts2 =
      ("# " +:+ title +:+ NL +:+ NL) +:+ join (NL +:+ NL) (section_block <$> ordered).
Proof.
  intros Hnd Hperm. split.
  - unfold md_join, md_sections. by rewrite (sorted_unique parts1 parts2).
  - exists (sorted parts2). split; [apply sorted_perm|]. split; [|done].
    apply StronglySorted_fmap_fst, sorted_strict; [|apply sorted_sorted].
    by rewrite sorted_perm, <- Hperm.
Qed.

End Merge.

Lemma md_join_reproducible_witness :
  md_join "T" [("b", "2"); ("a", "1"); ("c", "3")] =
  md_join "T" [("c", "3"); ("b", "2"); ("a", "1")].
Proof.
  apply (md_join_reproducible "T" [("b", "2"); ("a", "1"); ("c", "3")]
           [("c", "3"); ("b", "2"); ("a", "1")]).
  - apply (bool_decide_unpack _). reflexivity.
  - apply (Permutation_trans (l' := [("b", "2"); ("c", "3"); ("a", "1")])).
    + apply perm_skip, perm_swap.
    + apply perm_swap.
Defined.

(** ** The dispatcher *)

Section Dispatcher.
Context `{PyBuiltins} `{Gateway}.
Import Delegator.

Lemma omap_lookup_seq {A B} (g : nat -> A -> B) (l pre : list A) :
  omap (fun i => t ← (pre ++ l) !! i; Some (g i t)) (seq (length pre) (length l)) =
  imap (fun i => g (length pre + i)%nat) l.
Proof.
  revert pre. induction l as [|x l IH]; intros pre; [done|].
  cbn [length seq omap list_omap]. rewrite list_lookup_middle by done. simpl.
  rewrite Nat.add_0_r. f_equal.
  specialize (IH (pre ++ [x])). rewrite length_app, <- app_assoc in IH. simpl in IH.
  rewrite Nat.add_1_r in IH. rewrite IH.
  apply imap_ext. intros i y _. simpl. f_equal. lia.
Qed.

(** Whatever the pool does, the result holds one entry per task: a
    rearrangement of the entries of the tasks taken in input order. *)
Lemma parallel_map_entries tasks worker_fn max_workers p :
  0 < max_workers ->
  well_formed_pool tasks p ->
  exists parts,
    parallel_map tasks worker_fn max_workers p = Ok parts /\
    parts ≡ₚ imap (fun i t => collect (task_key t) (worker_fn t (view p i)).1) tasks.
Proof.
  intros Hmw Hwf. unfold parallel_map.
  replace (max_workers <=? 0) with false by (symmetry; apply Z.leb_gt; lia).
  eexists. split; [reflexivity|].
  unfold well_formed_pool in Hwf. rewrite Hwf.
  pose proof (omap_lookup_seq
                (fun i t => collect (task_key t) (worker_fn t (view p i)).1) tasks [])
    as E.
  simpl in E. by rewrite E.
Qed.

Lemma do_one_task self id q s :
  do_one self (id, prompt q, key q) s =
  try_except (ContentCreatorWorker.generate (worker_for self q))
             (fun _ => ContentCreatorWorker.generate (worker_for self q)) s.
Proof. by destruct q. Qed.

(** C4. In a batch where one unit's generation raises on the first attempt
    and on the retry, and every other unit's generation succeeds (at once or
    on its retry), the result holds one entry per unit: the failing unit's
    content is the error marker with the message of the exception, every
    other unit's content is what its generation returned. *)
Theorem dispatch_isolates_failure self plans max_workers p i q e1 s1 e2 s2
    (outs : nat -> string) :
  0 < max_workers ->
  well_formed_pool plans p ->
  plans !! i = Some q ->
  ContentCreatorWorker.generate (worker_for self q) (view p i) = (Raise e1, s1) ->
  ContentCreatorWorker.generate (worker_for self q) s1 = (Raise e2, s2) ->
  (forall j r, j <> i -> plans !! j = Some r ->
               generates (worker_for self r) (view p j) (outs j)) ->
  exists parts,
    run_parallel_generation self plans max_workers p = Ok parts /\
    length parts = length plans /\
    parts ≡ₚ imap (fun j r => (key r, if decide (j = i)
                                      then "__ERROR__: " +:+ exn_msg e2
                                      else outs j)) plans.
Proof.
  intros Hmw Hwf Hq Hfirst Hretry Hothers.
  destruct (parallel_map_entries (tasks_of plans) (do_one self) max_workers p Hmw)
    as (parts & Hrun & Hperm).
  { unfold well_formed_pool, tasks_of in *. by rewrite length_imap. }
  exists parts. split; [exact Hrun|].
  split; [by rewrite Hperm, length_imap; unfold tasks_of; rewrite length_imap|].
  rewrite Hperm.
  apply reflexive_eq, list_eq. intros j. unfold tasks_of.
  rewrite !list_lookup_imap.
  destruct (plans !! j) as [r|] eqn:Hr; [|reflexivity].
  cbn [fmap option_fmap option_map]. f_equal.
  rewrite do_one_task. unfold try_except, task_key. simpl.
  destruct (decide (j = i)) as [->|Hne].
  - assert (r = q) as -> by congruence. by rewrite Hfirst, Hretry.
  - destruct (Hothers j r Hne Hr) as [Hok | (e & s' & Hraise & Hok)].
    + destruct (ContentCreatorWorker.generate (worker_for self r) (view p j))
        as [[out|e] s'] eqn:E; simpl in Hok; [|discriminate].
      by injection Hok as ->.
    + rewrite Hraise.
      destruct (ContentCreatorWorker.generate (worker_for self r) s')
        as [[out|e'] s''] eqn:E; simpl in Hok; [|discriminate].
      by injection Hok as ->.
Qed.

End Dispatcher.

(** ** The revision controller *)

Section Revision.
Context `{PyBuiltins} `{Gateway}.
Import Delegator.

Lemma regenerate_outcome self k user text s :
  regenerate self k user text s =
    match ContentCreatorWorker.generate (worker_for self {| key := k; prompt := user |}) s with
    | (Ok new, s') => (Ok (k, new), s')
    | (Raise _, s') => (Ok (k, text), s')
    end.
Proof.
  unfold regenerate, bind, try_except, ret.
  by destruct (ContentCreatorWorker.generate _ s) as [[new|e] s'].
Qed.

Lemma full_body_keeps_key self raw : keeps_key (full_body self raw).
Proof.
  intros [k t] s. unfold full_body. rewrite regenerate_outcome.
  destruct (ContentCreatorWorker.generate _ s) as [[new|e] s']; eauto.
Qed.

Lemma selected_body_keeps_key self raw tks notes :
  keeps_key (selected_body self raw tks notes).
Proof.
  intros [k t] s. unfold selected_body. case_bool_decide.
  - rewrite regenerate_outcome.
    destruct (ContentCreatorWorker.generate _ s) as [[new|e] s']; eauto.
  - unfold ret. eauto.
Qed.

Lemma for_each_cons {A B} (body : A -> M B) x l s y s1 :
  body x s = (Ok y, s1) ->
  for_each body (x :: l) s =
    match for_each body l s1 with
    | (Ok ys, s') => (Ok (y :: ys), s')
    | (Raise e, s') => (Raise e, s')
    end.
Proof. intros Hx. simpl. unfold bind at 1. rewrite Hx. reflexivity. Qed.

(** A loop whose body keeps the identity returns one entry per section, with
    the identities of the input; the entry at position [i] is what the body
    gives for section [i] in the state the first [i] sections leave. *)
Lemma for_each_keeps_key body l s :
  keeps_key body ->
  exists ys s',
    for_each body l s = (Ok ys, s') /\
    ys.*1 = l.*1 /\
    forall i x, l !! i = Some x ->
      exists y si', body x (for_each body (take i l) s).2 = (Ok y, si') /\
                    ys !! i = Some y.
Proof.
  intros Hbody. revert s. induction l as [|x l IH]; intros s.
  - exists [], s. split; [done|]. split; [done|].
    intros i x Hx. by rewrite lookup_nil in Hx.
  - destruct (Hbody x s) as (y & s1 & Hx & Hkey).
    destruct (IH s1) as (ys & s' & Hrun & Hkeys & Hat).
    exists (y :: ys), s'. rewrite (for_each_cons _ _ _ _ _ _ Hx), Hrun.
    split; [done|]. split; [by rewrite !fmap_cons, Hkey, Hkeys|].
    intros [|i] x' Hx'.
    + injection Hx' as <-. simpl. eauto.
    + simpl in Hx'. destruct (Hat i x' Hx') as (y' & si' & Hy' & Hlook).
      exists y', si'. split; [|exact Hlook].
      cbn [take]. rewrite (for_each_cons _ _ _ _ _ _ Hx).
      destruct (for_each body (take i l) s1) as [[zs|e] s2] eqn:E; exact Hy'.
Qed.

Lemma for_each_ext_in {A B} (f g : A -> M B) l s :
  (forall x, x ∈ l -> forall s, f x s = g x s) -> for_each f l s = for_each g l s.
Proof.
  revert s. induction l as [|x l IH]; intros s Hfg; [done|].
  simpl. unfold bind at 1 3. rewrite (Hfg x) by left.
  destruct (g x s) as [[y|e] s1]; [|done].
  unfold bind. rewrite IH; [done|]. intros z Hz. apply Hfg. by right.
Qed.

Lemma for_each_ret {A} (l : list A) s : for_each ret l s = (Ok l, s).
Proof.
  revert s. induction l as [|x l IH]; intros s; [done|].
  simpl. unfold bind, ret in *. by rewrite IH.
Qed.

Lemma revise_parts_unfold self parts raw :
  revise_parts self parts raw = for_each (full_body self raw) parts.
Proof.
  unfold revise_parts. f_equal.
Qed.

Lemma revise_selected_parts_unfold self parts fb tks notes s :
  targets_of fb = Ok (tks, notes) ->
  revise_selected_parts self parts fb s =
    match tks with
    | [] => revise_parts self parts (fb_raw fb) s
    | _ => for_each (selected_body self (fb_raw fb) tks notes) parts s
    end.
Proof.
  intros Ht. unfold revise_selected_parts, bind, lift. rewrite Ht.
  destruct tks; reflexivity.
Qed.

(** C5. When the target keys extracted from the verdict are all the one
    identity [a], targeted revision returns the sections in their input
    positions with their identities, and every section whose identity is not
    [a] with the content it came in with. *)
Theorem targeted_revision_frame self parts fb a tks notes s :
  targets_of fb = Ok (tks, notes) ->
  tks <> [] ->
  (forall k, k ∈ tks -> k = a) ->
  exists out s',
    revise_selected_parts self parts fb s = (Ok out, s') /\
    out.*1 = parts.*1 /\
    forall i k t, parts !! i = Some (k, t) -> k <> a -> out !! i = Some (k, t).
Proof.
  intros Ht Hne Hall.
  rewrite (revise_selected_parts_unfold _ _ _ _ _ _ Ht).
  destruct tks as [|k0 tks']; [done|].
  destruct (for_each_keeps_key (selected_body self (fb_raw fb) (k0 :: tks') notes)
              parts s (selected_body_keeps_key _ _ _ _))
    as (out & s' & Hrun & Hkeys & Hat).
  exists out, s'. repeat split; [exact Hrun|exact Hkeys|].
  intros i k t Hi Hk. destruct (Hat i (k, t) Hi) as (y & si' & Hy & Hlook).
  rewrite Hlook. f_equal.
  change (selected_body self (fb_raw fb) (k0 :: tks') notes (k, t))
    with (if bool_decide (k ∈ k0 :: tks')
          then regenerate self k
                 (selected_prompt k (fb_raw fb) (default "" (notes !! k)) t) t
          else ret (k, t)) in Hy.
  rewrite bool_decide_eq_false_2 in Hy; [by injection Hy as <-|].
  intros Hin. by apply Hk, Hall.
Qed.

(** C6. In full revision and in targeted revision the returned list has one
    entry per input section, with the input identities; and when the
    regeneration call made for the section at position [i] raises, the entry
    at [i] is the section as it came in. When no target key is extracted,
    targeted revision is full revision with the raw feedback. *)
Theorem revision_keeps_content_on_failure self parts s i k t e :
  parts !! i = Some (k, t) ->
  (forall raw s_e,
     ContentCreatorWorker.generate
       (worker_for self {| key := k; prompt := revise_prompt k raw t |})
       (revise_parts self (take i parts) raw s).2 = (Raise e, s_e) ->
     exists out s',
       revise_parts self parts raw s = (Ok out, s') /\
       out.*1 = parts.*1 /\ out !! i = Some (k, t)) /\
  (forall fb tks notes s_e,
     targets_of fb = Ok (tks, notes) -> tks <> [] -> k ∈ tks ->
     ContentCreatorWorker.generate
       (worker_for self
          {| key := k;
             prompt := selected_prompt k (fb_raw fb) (default "" (notes !! k)) t |})
       (revise_selected_parts self (take i parts) fb s).2 = (Raise e, s_e) ->
     exists out s',
       revise_selected_parts self parts fb s = (Ok out, s') /\
       out.*1 = parts.*1 /\ out !! i = Some (k, t)) /\
  (forall fb notes,
     targets_of fb = Ok ([], notes) ->
     revise_selected_parts self parts fb s = revise_parts self parts (fb_raw fb) s).
Proof.
  intros Hi. split; [|split].
  - intros raw s_e Hraise. rewrite revise_parts_unfold in *.
    destruct (for_each_keeps_key (full_body self raw) parts s (full_body_keeps_key _ _))
      as (out & s' & Hrun & Hkeys & Hat).
    exists out, s'. repeat split; [exact Hrun|exact Hkeys|].
    destruct (Hat i (k, t) Hi) as (y & si' & Hy & Hlook). rewrite Hlook. f_equal.
    change (full_body self raw (k, t))
      with (regenerate self k (revise_prompt k raw t) t) in Hy.
    rewrite regenerate_outcome, Hraise in Hy. by injection Hy as <-.
  - intros fb tks notes s_e Ht Hne Hin Hraise.
    rewrite (revise_selected_parts_unfold _ (take i parts) _ _ _ _ Ht) in Hraise.
    rewrite (revise_selected_parts_unfold _ parts _ _ _ _ Ht).
    destruct tks as [|k0 tks']; [done|].
    destruct (for_each_keeps_key (selected_body self (fb_raw fb) (k0 :: tks') notes)
                parts s (selected_body_keeps_key _ _ _ _))
      as (out & s' & Hrun & Hkeys & Hat).
    exists out, s'. repeat split; [exact Hrun|exact Hkeys|].
    destruct (Hat i (k, t) Hi) as (y & si' & Hy & Hlook). rewrite Hlook. f_equal.
    change (selected_body self (fb_raw fb) (k0 :: tks') notes (k, t))
      with (if bool_decide (k ∈ k0 :: tks')
            then regenerate self k
                   (selected_prompt k (fb_raw fb) (default "" (notes !! k)) t) t
            else ret (k, t)) in Hy.
    rewrite bool_decide_eq_true_2 in Hy by done.
    rewrite regenerate_outcome, Hraise in Hy. by injection Hy as <-.
  - intros fb notes Ht. by rewrite (revise_selected_parts_unfold _ _ _ _ _ _ Ht).
Qed.

(** C10, as amended. When the list of target keys extracted from the
    feedback is not empty and none of them is the identity of a current
    section, targeted revision returns the sections as they came in and
    sends nothing to the provider: no fallback to full revision occurs. *)
Theorem unmatched_targets_change_nothing self parts fb tks notes s :
  targets_of fb = Ok (tks, notes) ->
  tks <> [] ->
  (forall k, k ∈ tks -> k ∉ parts.*1) ->
  revise_selected_parts self parts fb s = (Ok parts, s).
Proof.
  intros Ht Hne Hnone.
  rewrite (revise_selected_parts_unfold _ _ _ _ _ _ Ht).
  destruct tks as [|k0 tks']; [done|].
  rewrite (for_each_ext_in _ ret); [apply for_each_ret|].
  intros [k t] Hin s0. unfold selected_body.
  rewrite bool_decide_eq_false_2; [done|].
  intros Hk. apply (Hnone k Hk). apply list_elem_of_fmap. by exists (k, t).
Qed.

End Revision.

(** ** What a run sends to the provider *)

Section Requests.
Context `{PyBuiltins} `{Gateway}.
Import Delegator.

Lemma system_worker_not_verifier :
  ContentCreatorWorker.SYSTEM <> FeedbackFactCheckerAgent.SYSTEM.
Proof. apply String.eqb_neq. vm_compute. reflexivity. Qed.

Lemma system_formatter_not_verifier :
  MarkdownFormatterAgent.SYSTEM <> FeedbackFactCheckerAgent.SYSTEM.
Proof. apply String.eqb_neq. vm_compute. reflexivity. Qed.

Lemma system_formatter_not_worker :
  MarkdownFormatterAgent.SYSTEM <> ContentCreatorWorker.SYSTEM.
Proof. apply String.eqb_neq. vm_compute. reflexivity. Qed.

Lemma verifications_app l1 l2 :
  verifications (l1 ++ l2) = (verifications l1 + verifications l2)%nat.
Proof. unfold verifications. by rewrite filter_app, length_app. Qed.

Lemma regenerations_app l1 l2 :
  regenerations (l1 ++ l2) = (regenerations l1 + regenerations l2)%nat.
Proof. unfold regenerations. by rewrite filter_app, length_app. Qed.

Lemma count_all (sys : string) (l : list request) :
  Forall (fun r => req_system r = sys) l ->
  length (filter (fun r => req_system r = sys) l) = length l.
Proof.
  induction 1 as [|r l Hr _ IH]; [done|].
  rewrite filter_cons_True by done. simpl. by rewrite IH.
Qed.

Lemma count_none (sys sys' : string) (l : list request) :
  sys <> sys' ->
  Forall (fun r => req_system r = sys) l ->
  length (filter (fun r => req_system r = sys') l) = 0%nat.
Proof.
  intros Hne. induction 1 as [|r l Hr _ IH]; [done|].
  rewrite filter_cons_False; [exact IH|]. congruence.
Qed.

Lemma ask_log client sys user uri s :
  exists r s',
    ask client sys user uri s = (r, s') /\
    asked s' = asked s ++ [Request (model client) sys user uri].
Proof.
  unfold ask. destruct (generate_content _ (gw s)) as [[[text|]|e] w']; eauto.
Qed.

Lemma clamp_difficulty x :
  let c := clamp 1 5 x in c = 1 \/ c = 2 \/ c = 3 \/ c = 4 \/ c = 5.
Proof. unfold clamp. lia. Qed.

(** a worker built by the delegator has a difficulty level with a label, so
    [generate] is its one call to [ask] *)
Lemma generate_sends self sec s :
  let w := Delegator.worker_for self sec in
  exists r s',
    ContentCreatorWorker.generate w s = (r, s') /\ asked s' = asked s ++ [request_of w].
Proof.
  intros w. unfold ContentCreatorWorker.generate, request_of, bind, lift.
  assert (exists label, ContentCreatorWorker.difficulty_label w = Ok label) as [label ->].
  { unfold ContentCreatorWorker.difficulty_label, w, Delegator.worker_for,
      ContentCreatorWorker.new. cbn [ContentCreatorWorker.difficulty_level].
    destruct (clamp_difficulty (Delegator.difficulty_level self))
      as [-> | [-> | [-> | [-> | ->]]]]; eauto. }
  apply ask_log.
Qed.

Lemma regenerate_sends self k user text s :
  exists new s',
    Delegator.regenerate self k user text s = (Ok (k, new), s') /\
    asked s' = asked s ++
      [request_of (Delegator.worker_for self {| key := k; prompt := user |})].
Proof.
  rewrite regenerate_outcome.
  destruct (generate_sends self {| key := k; prompt := user |} s)
    as ([new|e] & s' & -> & Hlog); eauto.
Qed.

(** A loop whose body keeps the identity and sends the requests [rq x] for
    the section [x] sends them section after section. *)
Lemma for_each_sends (body : string * string -> M (string * string))
    (rq : string * string -> list request) l s :
  (forall x s, exists y s', body x s = (Ok y, s') /\ y.1 = x.1 /\
                            asked s' = asked s ++ rq x) ->
  exists ys s',
    for_each body l s = (Ok ys, s') /\ ys.*1 = l.*1 /\
    asked s' = asked s ++ (l ≫= rq).
Proof.
  intros Hbody. revert s. induction l as [|x l IH]; intros s.
  - exists [], s. by rewrite app_nil_r.
  - destruct (Hbody x s) as (y & s1 & Hx & Hkey & Hlog1).
    destruct (IH s1) as (ys & s' & Hrun & Hkeys & Hlog).
    exists (y :: ys), s'. rewrite (for_each_cons _ _ _ _ _ _ Hx), Hrun.
    split; [done|]. split; [by rewrite !fmap_cons, Hkey, Hkeys|].
    rewrite Hlog, Hlog1. cbn [mbind list_bind]. by rewrite app_assoc.
Qed.

Lemma revise_parts_sends self parts raw s :
  exists out s',
    Delegator.revise_parts self parts raw s = (Ok out, s') /\
    out.*1 = parts.*1 /\
    asked s' = asked s ++ (full_request self raw <$> parts).
Proof.
  rewrite revise_parts_unfold.
  destruct (for_each_sends (full_body self raw) (fun kv => [full_request self raw kv])
              parts s) as (out & s' & Hrun & Hkeys & Hlog).
  { intros [k t] s0. unfold full_body, full_request.
    destruct (regenerate_sends self k (Delegator.revise_prompt k raw t) t s0)
      as (new & s1 & -> & Hlog). eauto. }
  exists out, s'. split; [done|]. split; [done|].
  rewrite Hlog. f_equal.
Qed.

(** the requests targeted revision sends: one per targeted section *)
Lemma selected_sends self raw tks notes parts s :
  exists out s' new,
    for_each (selected_body self raw tks notes) parts s = (Ok out, s') /\
    out.*1 = parts.*1 /\
    asked s' = asked s ++ new /\
    Forall (fun r => req_system r = ContentCreatorWorker.SYSTEM) new /\
    (length new <= length parts)%nat.
Proof.
  destruct (for_each_sends (selected_body self raw tks notes)
              (fun kv => if bool_decide (kv.1 ∈ tks)
                         then [selected_request self raw (default "" (notes !! kv.1)) kv]
                         else [])
              parts s) as (out & s' & Hrun & Hkeys & Hlog).
  { intros [k t] s0. unfold selected_body, selected_request. cbn [fst snd].
    case_bool_decide.
    - destruct (regenerate_sends self k
                  (Delegator.selected_prompt k raw (default "" (notes !! k)) t) t s0)
        as (new & s1 & -> & Hlog). eauto.
    - unfold ret. exists (k, t), s0. by rewrite app_nil_r. }
  exists out, s'. eexists. split; [done|]. split; [done|]. split; [exact Hlog|].
  clear. induction parts as [|x l [IH1 IH2]]; [split; [constructor|done]|].
  cbn [mbind list_bind]. case_bool_decide; simpl.
  - split; [by constructor|lia].
  - split; [done|lia].
Qed.

End Requests.

(** ** The coordinator's feedback loop *)

Section Loop.
Context `{PyBuiltins} `{Gateway}.
Import Delegator Coordinator.

Lemma verify_sends d md keys s :
  exists r s',
    FeedbackFactCheckerAgent.verify (Delegator.client d) (Delegator.file_uri d) md keys s
      = (r, s') /\
    asked s' = asked s ++ [verify_request d md keys].
Proof.
  unfold FeedbackFactCheckerAgent.verify, bind, lift, ret.
  destruct (ask_log (Delegator.client d) FeedbackFactCheckerAgent.SYSTEM
              (FeedbackFactCheckerAgent.verify_prompt md keys) (Delegator.file_uri d) s)
    as ([text|e] & s' & -> & Hlog); [|eauto].
  destruct (json_loads text) as [payload|]; [|eauto].
  destruct (FeedbackFactCheckerAgent._decide payload); [|eauto].
  destruct (FeedbackFactCheckerAgent.normalize_targets payload keys); eauto.
Qed.

Lemma merge_sends self d parts s :
  exists r s' new,
    merge self d parts s = (r, s') /\
    asked s' = asked s ++ new /\
    Forall (fun rq => req_system rq = MarkdownFormatterAgent.SYSTEM) new.
Proof.
  unfold merge. destruct (String.eqb (formatting self) "none").
  - exists (Ok (md_join (title self) parts)), s, []. by rewrite app_nil_r.
  - unfold format_markdown, MarkdownFormatterAgent.format.
    match goal with |- context [ask ?c ?sys ?u ?f s] =>
      destruct (ask_log c sys u f s) as (r & s' & -> & Hlog) end.
    exists r, s'. eexists. split; [done|]. split; [exact Hlog|]. by repeat constructor.
Qed.

Lemma revise_step_sends d parts fb s :
  exists r s' new,
    revise_step d parts fb s = (r, s') /\
    asked s' = asked s ++ new /\
    Forall (fun rq => req_system rq = ContentCreatorWorker.SYSTEM) new /\
    (length new <= length parts)%nat /\
    forall out, r = Ok out -> out.*1 = parts.*1.
Proof.
  assert (Hfull : forall raw, exists r s' new,
            revise_parts d parts raw s = (r, s') /\
            asked s' = asked s ++ new /\
            Forall (fun rq => req_system rq = ContentCreatorWorker.SYSTEM) new /\
            (length new <= length parts)%nat /\
            forall out, r = Ok out -> out.*1 = parts.*1).
  { intros raw. destruct (revise_parts_sends d parts raw s) as (out & s' & -> & Hk & Hlog).
    exists (Ok out), s'. eexists. split; [done|]. split; [exact Hlog|].
    split; [|split].
    - apply Forall_fmap, Forall_forall. by intros [k t] _.
    - by rewrite length_fmap.
    - by intros ? [= <-]. }
  unfold revise_step. destruct (truthy (fb_targets fb)); [|apply Hfull].
  destruct (targets_of fb) as [[tks notes]|e] eqn:Ht.
  - rewrite (revise_selected_parts_unfold _ _ _ _ _ _ Ht).
    destruct tks as [|k0 tks']; [apply Hfull|].
    destruct (selected_sends d (fb_raw fb) (k0 :: tks') notes parts s)
      as (out & s' & new & -> & Hk & Hlog & Hsys & Hlen).
    exists (Ok out), s', new. split; [done|]. split; [done|]. split; [done|].
    split; [done|]. by intros ? [= <-].
  - exists (Raise e), s, []. unfold revise_selected_parts, bind, lift. rewrite Ht.
    rewrite app_nil_r. split; [done|]. split; [done|]. split; [constructor|].
    split; [simpl; lia|done].
Qed.

Lemma feedback_loop_unfold fuel self d parts md loops s :
  feedback_loop (S fuel) self d parts md loops s =
    match FeedbackFactCheckerAgent.verify (Delegator.client d) (Delegator.file_uri d)
            md parts.*1 s with
    | (Raise e, s1) => (Raise e, s1)
    | (Ok fb, s1) =>
        let fb' := if bool_decide (fb_status fb = Some abort)
                   then forced_feedback fb parts else fb in
        if bool_decide (fb_status fb' = Some ok) then
          (Ok (Some {| out_parts := parts; out_md := md; out_loops := loops |}), s1)
        else if max_feedback_loops self <? loops + 1 then
          (Ok (Some {| out_parts := parts; out_md := md; out_loops := loops + 1 |}), s1)
        else
          match revise_step d parts fb' s1 with
          | (Raise e, s2) => (Raise e, s2)
          | (Ok parts', s2) =>
              match merge self d parts' s2 with
              | (Raise e, s3) => (Raise e, s3)
              | (Ok md', s3) => feedback_loop fuel self d parts' md' (loops + 1) s3
              end
          end
    end.
Proof.
  cbn [feedback_loop]. unfold bind at 1.
  destruct (FeedbackFactCheckerAgent.verify _ _ md parts.*1 s) as [[fb|e] s1]; [|done].
  cbv zeta. case_bool_decide; [done|].
  destruct (max_feedback_loops self <? loops + 1); [done|].
  unfold bind at 1. fold (revise_step d parts
    (if bool_decide (fb_status fb = Some abort) then forced_feedback fb parts else fb)).
  destruct (revise_step d parts _ s1) as [[parts'|e] s2]; [|done].
  unfold bind at 1. by destruct (merge self d parts' s2) as [[md'|e] s3].
Qed.

Lemma verifications_verify d md keys : verifications [verify_request d md keys] = 1%nat.
Proof. unfold verifications. by rewrite filter_cons_True. Qed.

Lemma regenerations_verify d md keys : regenerations [verify_request d md keys] = 0%nat.
Proof.
  unfold regenerations. rewrite filter_cons_False; [done|].
  simpl. intros E. by apply system_worker_not_verifier.
Qed.

Lemma verifications_revision new :
  Forall (fun rq => req_system rq = ContentCreatorWorker.SYSTEM) new ->
  verifications new = 0%nat.
Proof. apply count_none, system_worker_not_verifier. Qed.

Lemma regenerations_revision new :
  Forall (fun rq => req_system rq = ContentCreatorWorker.SYSTEM) new ->
  regenerations new = length new.
Proof. apply count_all. Qed.

Lemma verifications_merge new :
  Forall (fun rq => req_system rq = MarkdownFormatterAgent.SYSTEM) new ->
  verifications new = 0%nat.
Proof. apply count_none, system_formatter_not_verifier. Qed.

Lemma regenerations_merge new :
  Forall (fun rq => req_system rq = MarkdownFormatterAgent.SYSTEM) new ->
  regenerations new = 0%nat.
Proof. apply count_none, system_formatter_not_worker. Qed.

(** The loop entered with [loops] revisions behind it: it ends within the
    revisions left, [revisions_left], and sends one verification more than
    the revisions it makes. *)
Lemma feedback_loop_bounds self d fuel :
  forall parts md loops s,
    0 <= loops <= max_feedback_loops self ->
    (Z.to_nat (max_feedback_loops self - loops) < fuel)%nat ->
    exists r s' new,
      feedback_loop fuel self d parts md loops s = (r, s') /\
      r <> Ok None /\
      asked s' = asked s ++ new /\
      (verifications new <= S (Z.to_nat (max_feedback_loops self - loops)))%nat /\
      (regenerations new
         <= Z.to_nat (max_feedback_loops self - loops) * length parts)%nat /\
      forall o, r = Ok (Some o) ->
        loops <= out_loops o <= max_feedback_loops self + 1 /\
        (out_parts o).*1 = parts.*1 /\
        verifications new
          = S (Z.to_nat (Z.min (out_loops o) (max_feedback_loops self) - loops)) /\
        (regenerations new
           <= Z.to_nat (Z.min (out_loops o) (max_feedback_loops self) - loops)
              * length parts)%nat.
Proof.
  induction fuel as [|fuel IH]; intros parts md loops s Hloops Hfuel; [lia|].
  rewrite feedback_loop_unfold.
  destruct (verify_sends d md parts.*1 s) as (rv & s1 & -> & Hlog1).
  pose proof (verifications_verify d md parts.*1) as Hv1.
  pose proof (regenerations_verify d md parts.*1) as Hg1.
  destruct rv as [fb|e]; cycle 1.
  { exists (Raise e), s1. eexists. split; [done|]. split; [done|].
    split; [exact Hlog1|]. rewrite Hv1, Hg1. split; [lia|]. split; [apply Nat.le_0_l|done]. }
  cbv zeta. case_bool_decide.
  { eexists _, s1, _. split; [done|]. split; [done|]. split; [exact Hlog1|].
    rewrite Hv1, Hg1. split; [lia|]. split; [apply Nat.le_0_l|].
    intros o [= <-]. cbn [out_loops out_parts].
    split; [lia|]. split; [done|]. split; [lia|apply Nat.le_0_l]. }
  destruct (max_feedback_loops self <? loops + 1) eqn:Hmax.
  { apply Z.ltb_lt in Hmax.
    eexists _, s1, _. split; [done|]. split; [done|]. split; [exact Hlog1|].
    rewrite Hv1, Hg1. split; [lia|]. split; [apply Nat.le_0_l|].
    intros o [= <-]. cbn [out_loops out_parts].
    split; [lia|]. split; [done|]. split; [lia|apply Nat.le_0_l]. }
  apply Z.ltb_ge in Hmax.
  set (b' := Z.to_nat (max_feedback_loops self - (loops + 1))).
  assert (Hb : Z.to_nat (max_feedback_loops self - loops) = S b') by (unfold b'; lia).
  rewrite Hb in *.
  destruct (revise_step_sends d parts
              (if bool_decide (fb_status fb = Some abort)
               then forced_feedback fb parts else fb) s1)
    as (rp & s2 & new2 & -> & Hlog2 & Hsys2 & Hlen2 & Hkeys2).
  pose proof (verifications_revision _ Hsys2) as Hv2.
  pose proof (regenerations_revision _ Hsys2) as Hg2.
  destruct rp as [parts'|e]; cycle 1.
  { exists (Raise e), s2, ([verify_request d md parts.*1] ++ new2).
    split; [done|]. split; [done|].
    split; [by rewrite Hlog2, Hlog1, app_assoc|].
    rewrite verifications_app, regenerations_app, Hv1, Hg1, Hv2, Hg2.
    split; [lia|]. split; [nia|done]. }
  specialize (Hkeys2 _ eq_refl).
  assert (Hlen : length parts' = length parts).
  { by rewrite <- (length_fmap fst parts'), Hkeys2, length_fmap. }
  destruct (merge_sends self d parts' s2) as (rm & s3 & new3 & -> & Hlog3 & Hsys3).
  pose proof (verifications_merge _ Hsys3) as Hv3.
  pose proof (regenerations_merge _ Hsys3) as Hg3.
  destruct rm as [md'|e]; cycle 1.
  { exists (Raise e), s3, ([verify_request d md parts.*1] ++ new2 ++ new3).
    split; [done|]. split; [done|].
    split; [by rewrite Hlog3, Hlog2, Hlog1, <- !app_assoc|].
    rewrite !verifications_app, !regenerations_app, Hv1, Hg1, Hv2, Hg2, Hv3, Hg3.
    split; [lia|]. split; [nia|done]. }
  destruct (IH parts' md' (loops + 1) s3) as (r & s' & new4 & -> & Hr & Hlog4 & Hv4 & Hg4 & Ho);
    [lia|fold b'; lia|].
  fold b' in Hv4, Hg4. rewrite Hlen in Hg4.
  exists r, s', ([verify_request d md parts.*1] ++ new2 ++ new3 ++ new4).
  split; [done|]. split; [exact Hr|].
  split; [by rewrite Hlog4, Hlog3, Hlog2, Hlog1, <- !app_assoc|].
  rewrite !verifications_app, !regenerations_app, Hv1, Hg1, Hv2, Hg2, Hv3, Hg3.
  split; [lia|]. split; [nia|].
  intros o Heq. destruct (Ho o Heq) as (Hol & Hok & Hov & Hog).
  rewrite Hlen in Hog. rewrite Hov.
  set (c' := Z.to_nat (Z.min (out_loops o) (max_feedback_loops self) - (loops + 1))) in *.
  assert (Hc : Z.to_nat (Z.min (out_loops o) (max_feedback_loops self) - loops) = S c')
    by (unfold c'; lia).
  rewrite Hc. split; [lia|]. split; [congruence|]. split; [lia|nia].
Qed.

(** C7. Entered with [loops = 0], the loop ends within
    [max_feedback_loops + 1] iterations, by returning or by raising: the fuel
    [enough_fuel] never runs out. It sends at most [max_feedback_loops + 1]
    verifications and regenerates at most [max_feedback_loops] times the
    sections; when it returns after [passes] revision passes it has sent
    exactly [passes + 1] verifications, and [passes] is at most
    [max_feedback_loops]. With [max_feedback_loops = 0] a needs_revision
    verdict on the first check ends the loop with the sections and the draft
    it was entered with, and the verification is the only request sent. *)
Theorem feedback_loop_budget self d parts md s :
  0 <= max_feedback_loops self ->
  (exists r s' new,
     feedback_loop (enough_fuel self) self d parts md 0 s = (r, s') /\
     r <> Ok None /\
     asked s' = asked s ++ new /\
     (verifications new <= S (Z.to_nat (max_feedback_loops self)))%nat /\
     (regenerations new <= Z.to_nat (max_feedback_loops self) * length parts)%nat /\
     forall o, r = Ok (Some o) ->
       let passes := Z.to_nat (Z.min (out_loops o) (max_feedback_loops self)) in
       (passes <= Z.to_nat (max_feedback_loops self))%nat /\
       verifications new = S passes /\
       (regenerations new <= passes * length parts)%nat) /\
  (max_feedback_loops self = 0 ->
   forall fb s1,
     FeedbackFactCheckerAgent.verify (Delegator.client d) (Delegator.file_uri d)
       md parts.*1 s = (Ok fb, s1) ->
     fb_status fb = Some needs_revision ->
     feedback_loop (enough_fuel self) self d parts md 0 s =
       (Ok (Some {| out_parts := parts; out_md := md; out_loops := 1 |}), s1) /\
     asked s1 = asked s ++ [verify_request d md parts.*1]).
Proof.
  intros Hmax. split.
  - destruct (feedback_loop_bounds self d (enough_fuel self) parts md 0 s)
      as (r & s' & new & Hrun & Hr & Hlog & Hv & Hg & Ho).
    { lia. } { unfold enough_fuel. rewrite Z.sub_0_r. lia. }
    rewrite Z.sub_0_r in Hv, Hg.
    exists r, s', new. split; [exact Hrun|]. split; [exact Hr|]. split; [exact Hlog|].
    split; [exact Hv|]. split; [exact Hg|].
    intros o Heq. destruct (Ho o Heq) as (Hol & _ & Hov & Hog).
    rewrite Z.sub_0_r in Hov, Hog. cbv zeta. split; [lia|]. split; [exact Hov|exact Hog].
  - intros Hzero fb s1 Hverify Hstatus. unfold enough_fuel.
    rewrite feedback_loop_unfold, Hverify. cbv zeta.
    rewrite (bool_decide_eq_false_2 (fb_status fb = Some abort)) by congruence.
    rewrite (bool_decide_eq_false_2 (fb_status fb = Some ok)) by congruence.
    rewrite Hzero. simpl. split; [done|].
    destruct (verify_sends d md parts.*1 s) as (r & s' & Hv & Hlog). congruence.
Qed.

Lemma extract_forced_targets l acc m :
  Forall stable_key l.*1 ->
  extract_targets (forced_target <$> l) acc m = (acc ++ l.*1, add_notes m l.*1).
Proof.
  revert acc m. induction l as [|[k t] l IH]; intros acc m Hst.
  - simpl. rewrite app_nil_r. unfold add_notes. by destruct (String.eqb _ _).
  - rewrite fmap_cons in Hst. apply Forall_cons in Hst as [[Hstrip Hne] Hst].
    cbn [fmap list_fmap forced_target fst extract_targets].
    simpl in Hstrip, Hne.
    assert (E : String.eqb k "" = false) by (by apply String.eqb_neq).
    assert (Hk : target_key_of [("key", JStr k); ("notes", JStr FORCED_NOTE)] = k).
    { unfold target_key_of, dict_get_default, por. simpl.
      repeat (rewrite E; simpl). exact Hstrip. }
    assert (Hn : target_notes_of [("key", JStr k); ("notes", JStr FORCED_NOTE)]
                 = forced_note) by reflexivity.
    rewrite Hk, Hn, E. rewrite IH by done. rewrite <- app_assoc. f_equal.
    unfold add_notes. cbn [fmap list_fmap foldl fst].
    by destruct (String.eqb forced_note "").
Qed.

Lemma add_notes_lookup keys k :
  k ∈ keys -> default "" (add_notes ∅ keys !! k) = forced_note.
Proof.
  unfold add_notes. destruct (String.eqb forced_note "") eqn:E.
  - intros _. apply String.eqb_eq in E. by rewrite lookup_empty, E.
  - intros Hin.
    assert (Hgen : forall (m : gmap string string),
              m !! k = Some forced_note \/ k ∈ keys ->
              foldl (fun m k => <[k := forced_note]> m) m keys !! k = Some forced_note).
    { clear Hin. induction keys as [|k' keys IH]; intros m [Hm | Hin]; simpl.
      - exact Hm.
      - by apply elem_of_nil in Hin.
      - apply IH. left. destruct (decide (k' = k)) as [->|Hne].
        + apply lookup_insert_eq.
        + by rewrite lookup_insert_ne.
      - apply IH. apply elem_of_cons in Hin as [-> | Hin].
        + left. apply lookup_insert_eq.
        + by right. }
    by rewrite Hgen by auto.
Qed.

Lemma targets_of_forced fb parts :
  Forall stable_key parts.*1 ->
  targets_of (forced_feedback fb parts) = Ok (parts.*1, add_notes ∅ parts.*1).
Proof.
  intros Hst. unfold targets_of, forced_feedback. cbn [fb_targets].
  change (JArr ((fun kv => JObj [("key", JStr kv.1); ("notes", JStr FORCED_NOTE)])
                  <$> parts))
    with (JArr (forced_target <$> parts)).
  assert (Hiter : py_iter (por (JArr (forced_target <$> parts)) (JArr []))
                  = Ok (forced_target <$> parts)).
  { by destruct parts. }
  rewrite Hiter. simpl. by rewrite extract_forced_targets.
Qed.

Lemma revise_step_forced d fb parts s :
  Forall stable_key parts.*1 ->
  revise_step d parts (forced_feedback fb parts) s =
  for_each (strict_body d (fb_raw (forced_feedback fb parts))) parts s.
Proof.
  intros Hst. unfold revise_step.
  destruct parts as [|kv parts'] eqn:Eparts; [reflexivity|]. rewrite <- Eparts in *.
  replace (truthy (fb_targets (forced_feedback fb parts))) with true
    by (by rewrite Eparts).
  rewrite (revise_selected_parts_unfold _ _ _ _ _ _ (targets_of_forced fb parts Hst)).
  replace (match parts.*1 with
           | [] => revise_parts d parts (fb_raw (forced_feedback fb parts)) s
           | _ => for_each (selected_body d (fb_raw (forced_feedback fb parts)) parts.*1
                              (add_notes ∅ parts.*1)) parts s
           end)
    with (for_each (selected_body d (fb_raw (forced_feedback fb parts)) parts.*1
                      (add_notes ∅ parts.*1)) parts s)
    by (by rewrite Eparts).
  apply for_each_ext_in. intros [k t] Hin s0. unfold selected_body, strict_body.
  assert (Hk : k ∈ parts.*1) by (apply list_elem_of_fmap; by exists (k, t)).
  rewrite bool_decide_eq_true_2 by done. by rewrite add_notes_lookup.
Qed.

(** C8. When the verifier returns an abort verdict and the loop counter is
    below [max_feedback_loops], the loop goes on: the feedback becomes the raw
    feedback followed by the strict-rewrite directive, with every current
    section as a target; every section is sent to the section generator once,
    in order, with that feedback; then the sections are merged again and the
    loop continues, with the next verification, at [loops + 1]. The section
    identities are the planner's: stripped, non-empty lines. *)
Theorem abort_forces_full_rewrite fuel self d parts md loops s fb s1 :
  FeedbackFactCheckerAgent.verify (Delegator.client d) (Delegator.file_uri d)
    md parts.*1 s = (Ok fb, s1) ->
  fb_status fb = Some abort ->
  Forall stable_key parts.*1 ->
  loops + 1 <= max_feedback_loops self ->
  let forced := forced_feedback fb parts in
  fb_raw forced = fb_raw fb +:+ NL +:+ STRICT_MSG /\
  fb_targets forced = JArr (forced_target <$> parts) /\
  (exists notes, targets_of forced = Ok (parts.*1, notes)) /\
  exists parts' s2,
    for_each (strict_body d (fb_raw forced)) parts s1 = (Ok parts', s2) /\
    parts'.*1 = parts.*1 /\
    asked s2 = asked s1 ++ (selected_request d (fb_raw forced) forced_note <$> parts) /\
    feedback_loop (S fuel) self d parts md loops s =
      (let* md' := merge self d parts' in
       feedback_loop fuel self d parts' md' (loops + 1)) s2.
Proof.
  intros Hverify Hstatus Hst Hbudget forced.
  split; [reflexivity|]. split; [reflexivity|].
  split; [eexists; by apply targets_of_forced|].
  destruct (for_each_sends (strict_body d (fb_raw forced))
              (fun kv => [selected_request d (fb_raw forced) forced_note kv]) parts s1)
    as (parts' & s2 & Hrun & Hkeys & Hlog).
  { intros [k t] s0. unfold strict_body, selected_request. cbn [fst snd].
    destruct (regenerate_sends d k (selected_prompt k (fb_raw forced) forced_note t) t s0)
      as (new & s' & -> & Hlog). eauto. }
  exists parts', s2. split; [exact Hrun|]. split; [exact Hkeys|].
  split; [rewrite Hlog; f_equal|].
  rewrite feedback_loop_unfold, Hverify. cbv zeta.
  rewrite (bool_decide_eq_true_2 (fb_status fb = Some abort)) by done.
  rewrite (bool_decide_eq_false_2 (fb_status (forced_feedback fb parts) = Some ok))
    by discriminate.
  replace (max_feedback_loops self <? loops + 1) with false
    by (symmetry; apply Z.ltb_ge; lia).
  rewrite (revise_step_forced d fb parts s1 Hst). fold forced. rewrite Hrun.
  unfold bind. by destruct (merge self d parts' s2) as [[md'|e] s3].
Qed.

(** The identities the loop sees are the planner's: [str.strip] is idempotent
    and leaves the three default titles as they are, so [analyze] makes
    stripped, non-empty lines, and the dispatcher hands the identities on. *)
Lemma nonblank_lines_stable text :
  (forall l, str_strip (str_strip l) = str_strip l) ->
  Forall stable_key (PDFStructureAnalyst.nonblank_lines text).
Proof.
  intros Hidemp.
  unfold PDFStructureAnalyst.nonblank_lines. apply Forall_forall. intros l Hl.
  apply list_elem_of_filter in Hl as [Hne Hl].
  apply list_elem_of_fmap in Hl as (l0 & -> & _).
  split; [apply Hidemp|exact Hne].
Qed.

Lemma analyze_keys_stable client uri s plans s' :
  (forall l, str_strip (str_strip l) = str_strip l) ->
  Forall stable_key PDFStructureAnalyst.default_lines ->
  PDFStructureAnalyst.analyze client uri s = (Ok plans, s') ->
  Forall stable_key (key <$> plans).
Proof.
  intros Hidemp Hdefault. unfold PDFStructureAnalyst.analyze, bind, ret.
  destruct (ask client _ _ uri s) as [[text|e] s1]; [|discriminate].
  intros [= <- <-]. rewrite <- list_fmap_compose.
  pose proof (nonblank_lines_stable text Hidemp) as Hlines.
  destruct (PDFStructureAnalyst.nonblank_lines text) as [|l ls];
    apply Forall_fmap; [exact Hdefault|exact Hlines].
Qed.

Lemma dispatch_keeps_keys d plans max_workers p parts :
  0 < max_workers ->
  well_formed_pool plans p ->
  run_parallel_generation d plans max_workers p = Ok parts ->
  parts.*1 ≡ₚ key <$> plans.
Proof.
  intros Hmw Hwf Hrun.
  destruct (parallel_map_entries (tasks_of plans) (do_one d) max_workers p Hmw)
    as (parts0 & Hrun0 & Hperm).
  { unfold well_formed_pool, tasks_of in *. by rewrite length_imap. }
  unfold run_parallel_generation in Hrun. rewrite Hrun0 in Hrun. injection Hrun as <-.
  rewrite Hperm. apply reflexive_eq, list_eq. intros j. unfold tasks_of.
  rewrite !list_lookup_fmap, !list_lookup_imap.
  destruct (plans !! j) as [q|]; [|done]. simpl. f_equal.
  unfold collect, task_key. by case_match.
Qed.

End Loop.

(** ** The properties on the examples *)

(** [strip] of the example instance is idempotent, as [str.strip] is, and
    leaves the default titles as they are *)
Lemma rstrip_idemp s : Example.rstrip (Example.rstrip s) = Example.rstrip s.
Proof.
  induction s as [|c r IH]; [reflexivity|]. simpl.
  destruct (Example.rstrip r) as [|c2 r2] eqn:E.
  - destruct (Example.is_space c) eqn:Hc; simpl; [reflexivity|]. by rewrite Hc.
  - change (Example.rstrip (String c (String c2 r2)))
      with (match Example.rstrip (String c2 r2) with
            | EmptyString => if Example.is_space c then EmptyString else String c EmptyString
            | r' => String c r'
            end).
    by rewrite IH.
Qed.

Lemma rstrip_fixed_tail c r :
  Example.rstrip (String c r) = String c r -> Example.rstrip r = r.
Proof.
  simpl. destruct (Example.rstrip r) as [|c2 r2].
  - destruct (Example.is_space c); [discriminate|]. by intros [= <-].
  - by intros [= <-].
Qed.

Lemma rstrip_lstrip_fixed u :
  Example.rstrip u = u -> Example.rstrip (Example.lstrip u) = Example.lstrip u.
Proof.
  induction u as [|c r IH]; [done|]. intros Hu. simpl.
  destruct (Example.is_space c); [|exact Hu].
  apply IH. by eapply rstrip_fixed_tail.
Qed.

Lemma lstrip_idemp s : Example.lstrip (Example.lstrip s) = Example.lstrip s.
Proof.
  induction s as [|c r IH]; [done|]. simpl.
  destruct (Example.is_space c) eqn:Hc; [exact IH|]. simpl. by rewrite Hc.
Qed.

Lemma strip_idemp s : Example.strip (Example.strip s) = Example.strip s.
Proof.
  unfold Example.strip. rewrite rstrip_lstrip_fixed by apply rstrip_idemp.
  apply lstrip_idemp.
Qed.

Lemma default_lines_stable :
  Forall stable_key PDFStructureAnalyst.default_lines.
Proof. repeat constructor; discriminate. Qed.

Lemma dispatch_isolates_failure_witness :
  exists parts,
    Delegator.run_parallel_generation Example.delegator0 Example.plans3 4 Example.pool3
      = Ok parts /\
    length parts = 3%nat /\
    parts ≡ₚ [("A", "alpha"); ("B", "__ERROR__: quota again"); ("C", "gamma")].
Proof.
  eapply (dispatch_isolates_failure Example.delegator0 Example.plans3 4 Example.pool3
            1 {| key := "B"; prompt := "write B" |} _ _
            (Exception RemoteError "quota again") _
            (fun j => match j with 0%nat => "alpha" | _ => "gamma" end)).
  - lia.
  - unfold well_formed_pool. simpl.
    apply (Permutation_trans (l' := [0; 2; 1]%nat)); [apply perm_swap|].
    apply perm_skip, perm_swap.
  - reflexivity.
  - reflexivity.
  - reflexivity.
  - intros [|[|[|j]]] r Hne Hr; [| |simpl in Hr..].
    + injection Hr as <-. by left.
    + done.
    + injection Hr as <-. right. by eexists _, _.
    + discriminate Hr.
Defined.

Lemma targeted_revision_frame_witness :
  exists out s',
    Delegator.revise_selected_parts Example.delegator0 Example.parts3 Example.names_A
      (Example.start [Example.says "a1"]) = (Ok out, s') /\
    out !! 1%nat = Some ("B", "b0") /\ out !! 2%nat = Some ("C", "c0").
Proof.
  edestruct (targeted_revision_frame Example.delegator0 Example.parts3 Example.names_A
               "A" ["A"] (<["A" := "cite the source"]> ∅)
               (Example.start [Example.says "a1"]))
    as (out & s' & Hrun & _ & Hframe).
  - reflexivity.
  - discriminate.
  - by intros k ->%list_elem_of_singleton.
  - exists out, s'. split; [exact Hrun|].
    split; apply Hframe; (reflexivity || discriminate).
Defined.

Lemma revision_keeps_content_on_failure_witness :
  exists out s',
    Delegator.revise_parts Example.delegator0 Example.parts2 "raw feedback"
      (Example.start [Example.says "a1"; Example.fails "down"]) = (Ok out, s') /\
    out !! 1%nat = Some ("B", "b0").
Proof.
  destruct (revision_keeps_content_on_failure Example.delegator0 Example.parts2
              (Example.start [Example.says "a1"; Example.fails "down"])
              1 "B" "b0" (Exception RemoteError "down") eq_refl) as (Hfull & _).
  edestruct (Hfull "raw feedback") as (out & s' & Hrun & _ & Hat); [reflexivity|].
  by exists out, s'.
Defined.

(** C10, the claim as stated fails: the targets list is not empty, its one
    target carries no key, so no target key is extracted (and none equals an
    identity); the revision falls back to full revision and the content of
    section A changes. *)
Lemma keyless_target_falls_back_to_full_revision :
  truthy (fb_targets Example.names_nothing) = true /\
  Delegator.targets_of Example.names_nothing = Ok ([], ∅) /\
  (Delegator.revise_selected_parts Example.delegator0 Example.parts2 Example.names_nothing
     (Example.start [Example.says "a1"; Example.says "b1"])).1
    = Ok [("A", "a1"); ("B", "b1")].
Proof. split; [reflexivity|]. split; reflexivity. Qed.

Lemma unmatched_targets_change_nothing_witness :
  Delegator.revise_selected_parts Example.delegator0 Example.parts2 Example.names_Z
    (Example.start [Example.says "a1"]) =
  (Ok Example.parts2, Example.start [Example.says "a1"]).
Proof.
  eapply (unmatched_targets_change_nothing Example.delegator0 Example.parts2
            Example.names_Z ["Z"] ∅).
  - reflexivity.
  - discriminate.
  - intros k ->%list_elem_of_singleton. simpl.
    intros Hin. repeat (apply elem_of_cons in Hin as [Hin | Hin]; [discriminate Hin|]).
    by apply elem_of_nil in Hin.
Defined.

Lemma feedback_loop_budget_witness :
  (Coordinator.feedback_loop (Coordinator.enough_fuel Example.coordinator0)
     Example.coordinator0 Example.delegator0 Example.parts2 (md_join "T" Example.parts2) 0
     (Example.start [Example.says "Needs more citations"])).1 =
  Ok (Some {| Coordinator.out_parts := Example.parts2;
              Coordinator.out_md := md_join "T" Example.parts2;
              Coordinator.out_loops := 1 |}).
Proof.
  destruct (feedback_loop_budget Example.coordinator0 Example.delegator0 Example.parts2
              (md_join "T" Example.parts2)
              (Example.start [Example.says "Needs more citations"])) as [_ Hzero].
  { simpl. lia. }
  edestruct Hzero as [Hrun _]; [reflexivity|reflexivity|reflexivity|].
  by rewrite Hrun.
Defined.

Lemma abort_forces_full_rewrite_witness :
  (Coordinator.feedback_loop 3 Example.coordinator2 Example.delegator0 Example.parts2
     (md_join "T" Example.parts2) 0
     (Example.start [Example.says Example.abort_response; Example.says "a1";
                     Example.says "b1"; Example.says "fine, pass"])).1 =
  Ok (Some {| Coordinator.out_parts := [("A", "a1"); ("B", "b1")];
              Coordinator.out_md := md_join "T" [("A", "a1"); ("B", "b1")];
              Coordinator.out_loops := 1 |}).
Proof.
  edestruct (abort_forces_full_rewrite 2 Example.coordinator2 Example.delegator0
               Example.parts2 (md_join "T" Example.parts2) 0
               (Example.start [Example.says Example.abort_response; Example.says "a1";
                               Example.says "b1"; Example.says "fine, pass"]))
    as (_ & _ & _ & parts' & s2 & Hrun & _ & _ & Hloop).
  - reflexivity.
  - reflexivity.
  - repeat constructor; discriminate.
  - simpl. lia.
  - rewrite Hloop. vm_compute in Hrun. injection Hrun as <- <-. reflexivity.
Defined.

(* ===================================================================== *)
(** * Further properties of the code *)
(* ===================================================================== *)

(** ** The verifier *)

Section VerifierEdges.
Context `{PyBuiltins} `{Gateway}.
Import FeedbackFactCheckerAgent.

(** X1. A response that is valid JSON and not an object (a list, a string,
    a number, null) is not recovered by the keyword fallback: [verify] raises
    the AttributeError of [payload.get], after its one request. *)
Theorem verify_non_object_raises client uri draft keys s text s1 v :
  ask client SYSTEM (verify_prompt draft keys) uri s = (Ok text, s1) ->
  json_loads text = Some v ->
  (forall d, v <> JObj d) ->
  verify client uri draft keys s =
    (Raise (Exception AttributeError
              ("'" +:+ type_name v +:+ "' object has no attribute 'get'")), s1).
Proof.
  intros Hask Hjson Hv. unfold verify, bind. rewrite Hask, Hjson.
  destruct v; try reflexivity. by destruct (Hv l).
Qed.

(** X2. Outside the three decision words, fewer than three hallucinations
    give needs_revision as soon as the overlap ratio is not at least 0.25
    (a NaN included) or the count is above one. *)
Theorem decide_needs_revision_band payload o h d :
  overlap_of payload = Ok o ->
  hcount_of payload = Ok h ->
  decision_of payload = Ok d ->
  d <> "pass" -> d <> "ok" -> d <> "abort" ->
  h < 3 ->
  PrimFloat.leb 0.25 o = false \/ 1 < h ->
  _decide payload =
    Ok {| d_status := needs_revision; d_overlap_ratio := o;
          d_hallucination_count := h |}.
Proof.
  intros Ho Hh Hd Hp Hk Ha Hlt Hband.
  rewrite (decide_reads _ _ _ _ Ho Hh Hd).
  rewrite (eqb_false_of_ne _ _ Hp), (eqb_false_of_ne _ _ Hk), (eqb_false_of_ne _ _ Ha).
  replace (3 <=? h) with false by (symmetry; apply Z.leb_gt; lia).
  destruct Hband as [-> | Hh1]; [reflexivity|].
  replace (h <=? 1) with false by (symmetry; apply Z.leb_gt; lia).
  by rewrite andb_false_r.
Qed.

(** X3. A payload object that has none of the three fields reads as overlap
    0.0, count 0 and the empty decision, and gets needs_revision ([lower]
    does not turn the empty string into a decision word). *)
Theorem decide_missing_fields d :
  dict_get "overlap_ratio" d = None ->
  dict_get "hallucination_count" d = None ->
  dict_get "decision" d = None ->
  str_lower "" <> "pass" -> str_lower "" <> "ok" -> str_lower "" <> "abort" ->
  _decide (JObj d) =
    Ok {| d_status := needs_revision; d_overlap_ratio := 0;
          d_hallucination_count := 0 |}.
Proof.
  intros Ho Hh Hd Hp Hk Ha.
  assert (Eo : overlap_of (JObj d) = Ok 0%float).
  { unfold overlap_of, py_get, dict_get_default. by rewrite Ho. }
  assert (Eh : hcount_of (JObj d) = Ok 0).
  { unfold hcount_of, py_get, dict_get_default. by rewrite Hh. }
  assert (Ed : decision_of (JObj d) = Ok (str_lower "")).
  { unfold decision_of, py_get, dict_get_default. by rewrite Hd. }
  rewrite (decide_reads _ _ _ _ Eo Eh Ed).
  by rewrite (eqb_false_of_ne _ _ Hp), (eqb_false_of_ne _ _ Hk), (eqb_false_of_ne _ _ Ha).
Qed.

(** X4. A hallucination count that is an infinity or a NaN (the JSON
    extensions [Infinity], [-Infinity] and [NaN], which [json.loads] accepts)
    makes [_decide] raise: [int()] of it is an OverflowError or a
    ValueError. *)
Theorem decide_unbounded_count_raises d o f :
  overlap_of (JObj d) = Ok o ->
  dict_get "hallucination_count" d = Some (JFloat f) ->
  f = infinity \/ f = neg_infinity \/ f = nan ->
  exists e, _decide (JObj d) = Raise e /\
            (exn_type e = OverflowError \/ exn_type e = ValueError).
Proof.
  intros Ho Hh Hf. unfold _decide. rewrite Ho. cbn [rbind].
  unfold hcount_of, py_get, dict_get_default. rewrite Hh. cbn [rbind].
  destruct Hf as [-> | [-> | ->]]; eexists; (split; [reflexivity|]); simpl; auto.
Qed.

(** X5. Targets that the payload supplies are handed on as they are: when
    the payload's targets field is truthy, the feedback carries that value
    unchanged (it is not checked against the section keys), with the status
    and the metrics of [_decide] and the response as raw text. *)
Theorem verify_passes_targets_through client uri draft keys s text s1 d dec t :
  ask client SYSTEM (verify_prompt draft keys) uri s = (Ok text, s1) ->
  json_loads text = Some (JObj d) ->
  _decide (JObj d) = Ok dec ->
  dict_get "targets" d = Some t ->
  truthy t = true ->
  verify client uri draft keys s =
    (Ok {| fb_status := Some (d_status dec);
           fb_raw := text;
           fb_targets := t;
           fb_metrics := Some (d_overlap_ratio dec, d_hallucination_count dec) |}, s1).
Proof.
  intros Hask Hjson Hdec Ht Htruthy. unfold verify, bind, lift. rewrite Hask, Hjson, Hdec.
  unfold normalize_targets, py_get, dict_get_default. rewrite Ht. cbn [rbind].
  unfold por. by rewrite Htruthy, Htruthy.
Qed.




(** X7. When the payload gives no targets and its reasons field is a truthy
    value that cannot be iterated (a number, [true]), inferring the targets
    raises the TypeError of the loop over it, unless there is no section key
    to look for. *)
Theorem reasons_not_iterable d keys r e :
  truthy (dict_get_default "targets" JNull d) = false ->
  dict_get "reasons" d = Some r ->
  truthy r = true ->
  py_iter r = Raise e ->
  normalize_targets (JObj d) keys =
    match keys with
    | [] => Ok (JArr [])
    | _ => Raise e
    end.
Proof.
  intros Ht Hr Htruthy Hiter.
  assert (Hd : dict_get_default "reasons" JNull d = r).
  { unfold dict_get_default. by rewrite Hr. }
  unfold normalize_targets, py_get. cbn [rbind].
  unfold por at 1. rewrite Ht. cbn [truthy].
  rewrite Hd. unfold por. rewrite Htruthy.
  assert (is_str r = false) as -> by (by destruct r).
  destruct keys as [|sk keys]; [reflexivity|].
  cbn [match_reasons]. by rewrite Hiter.
Qed.

Lemma prefix_spec needle hay :
  String.prefix needle hay = true <-> exists post, hay = needle +:+ post.
Proof.
  revert hay. induction needle as [|c n IH]; intros hay.
  - destruct hay; simpl; (split; [intros _; by eexists|reflexivity]).
  - destruct hay as [|c' h]; simpl.
    { split; [discriminate|]. by intros [? [=]]. }
    destruct (Ascii.ascii_dec c c') as [->|Hne].
    + rewrite IH. split; intros [post Hp]; exists post; [by rewrite Hp|by injection Hp].
    + split; [discriminate|]. intros [post [= Hc _]]. by destruct Hne.
Qed.

(** X8. The keyword and section-key tests are substring containment:
    [needle in hay] holds exactly when [hay] is some text, then [needle],
    then some text. *)
Theorem str_in_spec needle hay :
  str_in needle hay = true <-> exists pre post, hay = pre +:+ needle +:+ post.
Proof.
  induction hay as [|c h IH]; cbn [str_in].
  - rewrite orb_false_r, prefix_spec. split.
    + intros [post Hp]. by exists "", post.
    + intros (pre & post & Hp). destruct pre; [by exists post|discriminate].
  - rewrite orb_true_iff, prefix_spec, IH. split.
    + intros [[post Hp] | (pre & post & Hp)].
      * by exists "", post.
      * exists (String c pre), post. simpl. by rewrite Hp.
    + intros (pre & post & Hp). destruct pre as [|c' pre].
      * left. by exists post.
      * right. injection Hp as _ Hp. by exists pre, post.
Qed.

End VerifierEdges.

(** ** The merge *)

Section MergeOrder.

Lemma leb_refl (a : string) : String.leb a a = true.
Proof. unfold String.leb. by rewrite string_compare_refl. Qed.

Lemma insert_by_key_filter (k : string) x l :
  filter (fun y => y.1 = k) (insert_by_key x l) =
  filter (fun y => y.1 = k) (x :: l).
Proof.
  induction l as [|y l IH]; [done|]. simpl.
  destruct (String.leb x.1 y.1) eqn:E; [done|].
  assert (Hne : y.1 <> x.1).
  { intros Heq. rewrite Heq, leb_refl in E. discriminate. }
  rewrite (filter_cons _ y), IH, !filter_cons.
  destruct (decide (x.1 = k)), (decide (y.1 = k)); try done. congruence.
Qed.

(** X9. The sort of the merge is stable: the sections that share an identity
    come out in the order they came in. *)
Theorem sorted_stable (k : string) parts :
  filter (fun y => y.1 = k) (sorted parts) = filter (fun y => y.1 = k) parts.
Proof.
  induction parts as [|x l IH]; [done|]. simpl sorted.
  rewrite insert_by_key_filter.
  destruct (decide (x.1 = k)).
  - rewrite !filter_cons_True by done. by rewrite IH.
  - rewrite !filter_cons_False by done. exact IH.
Qed.

(** X10. The merge emits one block per section it is given, duplicates of
    an identity included: the blocks are a rearrangement of the blocks of the
    input. *)
Theorem md_join_keeps_every_section parts :
  md_sections parts ≡ₚ section_block <$> parts /\
  length (md_sections parts) = length parts.
Proof.
  unfold md_sections. split.
  - by rewrite sorted_perm.
  - by rewrite length_fmap, sorted_perm.
Qed.

(** X11. Sections that come in with their identities in ascending order
    (equal neighbours allowed) are emitted in the order they came in. *)
Theorem md_join_keeps_ascending_order parts :
  StronglySorted by_key_le parts ->
  sorted parts = parts /\ md_sections parts = section_block <$> parts.
Proof.
  intros Hs. assert (E : sorted parts = parts).
  { induction Hs as [|x l Hl IH Hx]; [done|]. simpl. rewrite IH.
    destruct Hx as [|y l' Hxy _]; [done|]. simpl.
    unfold by_key_le, key_le in Hxy. by rewrite Hxy. }
  split; [exact E|]. unfold md_sections. by rewrite E.
Qed.

End MergeOrder.

(** ** The dispatcher, the planner, the section generator and [main] *)

Section DispatcherEdges.
Context `{PyBuiltins} `{Gateway}.

(** X12. The retry is a single one: for one task [do_one] sends the
    section's request once when the first attempt succeeds, and twice, the
    same request, when it raises; whatever the second attempt gives is the
    result. *)
Theorem do_one_retries_once self id q s :
  let w := Delegator.worker_for self q in
  exists r s',
    Delegator.do_one self (id, prompt q, key q) s = (r, s') /\
    ((exists text, (ContentCreatorWorker.generate w s).1 = Ok text /\ r = Ok text /\
                   asked s' = asked s ++ [request_of w]) \/
     (exists e s1, ContentCreatorWorker.generate w s = (Raise e, s1) /\
                   r = (ContentCreatorWorker.generate w s1).1 /\
                   asked s' = asked s ++ [request_of w; request_of w])).
Proof.
  intros w. rewrite do_one_task. unfold try_except. fold w.
  destruct (generate_sends self q s) as (r1 & s1 & Hg1 & Hlog1). fold w in Hg1, Hlog1.
  rewrite Hg1. destruct r1 as [text|e].
  - exists (Ok text), s1. split; [done|]. left. by exists text.
  - destruct (generate_sends self q s1) as (r2 & s2 & Hg2 & Hlog2).
    fold w in Hg2, Hlog2. rewrite Hg2.
    exists r2, s2. split; [done|]. right. exists e, s1.
    split; [done|]. split; [by rewrite Hg2|].
    by rewrite Hlog2, Hlog1, <- app_assoc.
Qed.

(** X13. With the pool size [run_build] asks for, which is always between 2
    and 6, parallel generation never raises, whatever the provider does: it
    returns one entry per plan, and the identities of the entries are those
    of the plans, rearranged. *)
Theorem generation_never_raises d plans p :
  well_formed_pool plans p ->
  2 <= Coordinator.pool_size plans <= 6 /\
  exists parts,
    Delegator.run_parallel_generation d plans (Coordinator.pool_size plans) p = Ok parts /\
    length parts = length plans /\
    parts.*1 ≡ₚ key <$> plans.
Proof.
  intros Hwf. assert (Hsize : 2 <= Coordinator.pool_size plans <= 6).
  { unfold Coordinator.pool_size. lia. }
  split; [exact Hsize|].
  destruct (parallel_map_entries (Delegator.tasks_of plans) (Delegator.do_one d)
              (Coordinator.pool_size plans) p) as (parts & Hrun & Hperm); [lia| |].
  { unfold well_formed_pool, Delegator.tasks_of in *. by rewrite length_imap. }
  exists parts. split; [exact Hrun|].
  split; [by rewrite Hperm, length_imap; unfold Delegator.tasks_of; rewrite length_imap|].
  apply (dispatch_keeps_keys d plans (Coordinator.pool_size plans) p); [lia|done|done].
Qed.


(** X15. Levels out of range never make a worker fail: a worker built by
    [__init__] with any two levels holds clamped levels, sends exactly one
    request per [generate], returns the response text (the empty string when
    the response has none) and raises only what the provider raises. *)
Theorem generate_raises_only_what_the_provider_raises client uri sec len dif s :
  let w := ContentCreatorWorker.new client uri sec len dif in
  0 <= ContentCreatorWorker.length_level w <= 10 /\
  1 <= ContentCreatorWorker.difficulty_level w <= 5 /\
  ContentCreatorWorker.generate w s =
    (match (generate_content (request_of w) (gw s)).1 with
     | Ok (Some text) => Ok text
     | Ok None => Ok ""
     | Raise e => Raise e
     end,
     State (generate_content (request_of w) (gw s)).2 (asked s ++ [request_of w])).
Proof.
  intros w. split; [unfold w, ContentCreatorWorker.new, clamp; simpl; lia|].
  split; [unfold w, ContentCreatorWorker.new, clamp; simpl; lia|].
  unfold ContentCreatorWorker.generate, request_of, bind, lift.
  assert (exists label, ContentCreatorWorker.difficulty_label w = Ok label) as [label ->].
  { unfold ContentCreatorWorker.difficulty_label, w, ContentCreatorWorker.new.
    cbn [ContentCreatorWorker.difficulty_level].
    destruct (clamp_difficulty dif) as [-> | [-> | [-> | [-> | ->]]]]; eauto. }
  unfold ask. cbn [ContentCreatorWorker.client ContentCreatorWorker.file_uri w
                   ContentCreatorWorker.new].
  by destruct (generate_content _ (gw s)) as [[[text|]|e] w'].
Qed.

(** X16. What [main] does to the arguments before it calls [build_command]
    changes nothing: the coordinator built from the clamped levels and the
    normalised formatting mode is the coordinator [__init__] builds from the
    arguments as given ([lower] leaves the two mode names as they are). *)
Theorem main_normalisation_is_redundant (a : Main.args) :
  str_lower "none" = "none" ->
  str_lower "light" = "light" ->
  Main.coordinator_of a =
    Coordinator.new (Main.title a) (Main.api_key a) (Main.model a)
      (Main.max_feedback_loops a) (Main.length_level a) (Main.difficulty_level a)
      (JStr (Main.formatting a)).
Proof.
  intros Hnone Hlight. unfold Main.coordinator_of, Coordinator.new. cbn [py_str].
  f_equal.
  - unfold clamp. lia.
  - unfold clamp. lia.
  - destruct (String.eqb (str_lower (Main.formatting a)) "none") eqn:En.
    { apply String.eqb_eq in En. rewrite En. simpl. by rewrite Hnone. }
    destruct (String.eqb (str_lower (Main.formatting a)) "light") eqn:El.
    { apply String.eqb_eq in El. rewrite El. simpl. by rewrite Hlight. }
    simpl. by rewrite Hlight.
Qed.

End DispatcherEdges.

(** ** The revision controller *)

Section RevisionEdges.
Context `{PyBuiltins} `{Gateway}.
Import Delegator.

(** X17. Full revision regenerates every section, once and in list order,
    whether the feedback is about it or not: it sends the section's revision
    request for each section and returns the sections with their
    identities. *)
Theorem full_revision_requests d parts raw s :
  exists out s',
    revise_parts d parts raw s = (Ok out, s') /\
    out.*1 = parts.*1 /\
    asked s' = asked s ++ (full_request d raw <$> parts) /\
    regenerations (full_request d raw <$> parts) = length parts.
Proof.
  destruct (revise_parts_sends d parts raw s) as (out & s' & Hrun & Hkeys & Hlog).
  exists out, s'. split; [exact Hrun|]. split; [exact Hkeys|]. split; [exact Hlog|].
  rewrite regenerations_revision, length_fmap; [done|].
  apply Forall_fmap, Forall_forall. by intros [k t] _.
Qed.

Lemma bind_selected_requests d raw (tks : list string) (notes : gmap string string)
    (parts : list (string * string)) :
  (parts ≫= fun kv =>
     if bool_decide (kv.1 ∈ tks)
     then [selected_request d raw (default "" (notes !! kv.1)) kv]
     else []) =
  (fun kv => selected_request d raw (default "" (notes !! kv.1)) kv)
    <$> filter (fun kv => kv.1 ∈ tks) parts.
Proof.
  induction parts as [|x l IH]; [done|].
  cbn [mbind list_bind]. rewrite filter_cons. case_bool_decide.
  - rewrite decide_True by done. rewrite fmap_cons. simpl. f_equal. exact IH.
  - rewrite decide_False by done. exact IH.
Qed.

(** X18. Targeted revision sends a request for the targeted sections and for
    no other: with a non-empty list of extracted target keys, the requests
    sent are those of the sections whose identity is a target key, in list
    order, each with the note recorded for its identity. *)
Theorem targeted_revision_requests d parts fb tks notes s :
  targets_of fb = Ok (tks, notes) ->
  tks <> [] ->
  exists out s',
    revise_selected_parts d parts fb s = (Ok out, s') /\
    out.*1 = parts.*1 /\
    asked s' = asked s ++
      ((fun kv => selected_request d (fb_raw fb) (default "" (notes !! kv.1)) kv)
         <$> filter (fun kv => kv.1 ∈ tks) parts).
Proof.
  intros Ht Hne. rewrite (revise_selected_parts_unfold _ _ _ _ _ _ Ht).
  destruct tks as [|k0 tks']; [done|].
  destruct (for_each_sends (selected_body d (fb_raw fb) (k0 :: tks') notes)
              (fun kv => if bool_decide (kv.1 ∈ k0 :: tks')
                         then [selected_request d (fb_raw fb)
                                 (default "" (notes !! kv.1)) kv]
                         else [])
              parts s) as (out & s' & Hrun & Hkeys & Hlog).
  { intros [k t] s0. unfold selected_body, selected_request. cbn [fst snd].
    case_bool_decide.
    - destruct (regenerate_sends d k
                  (selected_prompt k (fb_raw fb) (default "" (notes !! k)) t) t s0)
        as (new & s1 & -> & Hlog). eauto.
    - unfold ret. exists (k, t), s0. by rewrite app_nil_r. }
  exists out, s'. split; [exact Hrun|]. split; [exact Hkeys|].
  by rewrite Hlog, bind_selected_requests.
Qed.

(** X19. A targets field that is truthy and cannot be iterated (a non-zero
    number, [true]) makes targeted revision raise the TypeError of its first
    loop, before anything is sent. *)
Theorem targets_not_iterable_raise d parts fb e s :
  truthy (fb_targets fb) = true ->
  py_iter (fb_targets fb) = Raise e ->
  revise_selected_parts d parts fb s = (Raise e, s).
Proof.
  intros Ht Hiter. unfold revise_selected_parts, bind, lift, targets_of, por.
  by rewrite Ht, Hiter.
Qed.

Lemma extract_string_targets ks acc (m : gmap string string) :
  extract_targets (JStr <$> ks) acc m = (acc ++ ks, m).
Proof.
  revert acc. induction ks as [|k ks IH]; intros acc; simpl.
  - by rewrite app_nil_r.
  - by rewrite IH, <- app_assoc.
Qed.

(** X20. Targets given as plain strings are taken as they are: a targets
    list of strings yields exactly those strings as target keys, in order,
    unstripped and with empty strings kept, and no note. *)
Theorem string_targets_verbatim st raw metrics ks :
  targets_of {| fb_status := st; fb_raw := raw; fb_targets := JArr (JStr <$> ks);
                fb_metrics := metrics |} = Ok (ks, ∅).
Proof.
  unfold targets_of. cbn [fb_targets].
  assert (Hiter : py_iter (por (JArr (JStr <$> ks)) (JArr [])) = Ok (JStr <$> ks))
    by (by destruct ks).
  rewrite Hiter. cbn [rbind]. by rewrite extract_string_targets.
Qed.

(** X21. A targets field that is a non-empty string is read one character
    at a time, each character a target key; one that is a non-empty object
    is read as its keys. *)
Theorem targets_string_or_object st raw metrics :
  (forall s, s <> "" ->
     targets_of {| fb_status := st; fb_raw := raw; fb_targets := JStr s;
                   fb_metrics := metrics |} = Ok (str_chars s, ∅)) /\
  (forall o, o <> [] ->
     targets_of {| fb_status := st; fb_raw := raw; fb_targets := JObj o;
                   fb_metrics := metrics |} = Ok (o.*1, ∅)).
Proof.
  split.
  - intros s Hs. unfold targets_of, por. cbn [fb_targets truthy].
    rewrite (eqb_false_of_ne _ _ Hs). cbn [negb py_iter rbind].
    by rewrite extract_string_targets.
  - intros o Ho. unfold targets_of, por. cbn [fb_targets truthy].
    destruct o as [|kv o]; [done|]. cbn [py_iter rbind].
    change ((fun kv0 : string * json => JStr kv0.1) <$> kv :: o)
      with ((JStr ∘ fst) <$> kv :: o).
    by rewrite (list_fmap_compose fst JStr), extract_string_targets.
Qed.

End RevisionEdges.

(** ** The coordinator *)

Section CoordinatorEdges.
Context `{PyBuiltins} `{Gateway}.
Import Delegator Coordinator.

(** X22. Whatever it is given, [Coordinator.__init__] holds a loop budget
    that is not negative, a length level in 0..10, a difficulty level in
    1..5 and a formatting mode that is "none" or "light"; the mode is "none"
    only when the lower-cased argument is. *)
Theorem coordinator_new_ranges ttl akey mdl loops len dif fmt :
  let c := Coordinator.new ttl akey mdl loops len dif fmt in
  0 <= max_feedback_loops c /\
  0 <= length_level c <= 10 /\
  1 <= difficulty_level c <= 5 /\
  (formatting c = "none" \/ formatting c = "light") /\
  (formatting c = "none" <-> str_lower (py_str fmt) = "none").
Proof.
  intros c. unfold c, Coordinator.new, clamp.
  cbn [max_feedback_loops length_level difficulty_level formatting].
  split; [lia|]. split; [lia|]. split; [lia|].
  destruct (String.eqb (str_lower (py_str fmt)) "none") eqn:En.
  { apply String.eqb_eq in En. simpl. rewrite En. by split; [left|]. }
  apply String.eqb_neq in En.
  destruct (String.eqb (str_lower (py_str fmt)) "light") eqn:El; simpl.
  - apply String.eqb_eq in El. rewrite El. split; [by right|]. by rewrite <- El.
  - split; [by right|]. split; [discriminate|done].
Qed.

(** X23. A draft approved on the first check is final: the loop returns the
    sections and the draft it was entered with, with the loop counter
    untouched, after the verification request alone, whatever the budget. *)
Theorem loop_approved_first_check fuel self d parts md loops s fb s1 :
  FeedbackFactCheckerAgent.verify (Delegator.client d) (Delegator.file_uri d)
    md parts.*1 s = (Ok fb, s1) ->
  fb_status fb = Some ok ->
  feedback_loop (S fuel) self d parts md loops s =
    (Ok (Some {| out_parts := parts; out_md := md; out_loops := loops |}), s1) /\
  asked s1 = asked s ++ [verify_request d md parts.*1].
Proof.
  intros Hverify Hstatus. rewrite feedback_loop_unfold, Hverify. cbv zeta.
  rewrite (bool_decide_eq_false_2 (fb_status fb = Some abort)) by congruence.
  rewrite (bool_decide_eq_true_2 (fb_status fb = Some ok)) by done.
  split; [done|].
  destruct (verify_sends d md parts.*1 s) as (r & s' & Hv & Hlog). congruence.
Qed.

Lemma merge_none self d parts s :
  formatting self = "none" ->
  merge self d parts s = (Ok (md_join (title self) parts), s).
Proof. intros Hf. unfold merge. by rewrite Hf. Qed.

Lemma polishes_app l1 l2 : polishes (l1 ++ l2) = (polishes l1 + polishes l2)%nat.
Proof. unfold polishes. by rewrite filter_app, length_app. Qed.

Lemma polishes_verify d md keys : polishes [verify_request d md keys] = 0%nat.
Proof.
  unfold polishes. rewrite filter_cons_False; [done|].
  simpl. intros E. by apply system_formatter_not_verifier.
Qed.

Lemma polishes_revision new :
  Forall (fun rq => req_system rq = ContentCreatorWorker.SYSTEM) new ->
  polishes new = 0%nat.
Proof.
  apply count_none. intros E. by apply system_formatter_not_worker.
Qed.

(** What every run of the loop keeps, by induction on the iterations. *)
Lemma feedback_loop_invariants self d fuel :
  forall parts md loops s r s',
    feedback_loop fuel self d parts md loops s = (r, s') ->
    exists new,
      asked s' = asked s ++ new /\
      (formatting self = "none" -> polishes new = 0%nat) /\
      forall o, r = Ok (Some o) ->
        (out_parts o).*1 = parts.*1 /\
        loops <= out_loops o /\
        (formatting self = "none" -> md = md_join (title self) parts ->
         out_md o = md_join (title self) (out_parts o)).
Proof.
  induction fuel as [|fuel IH]; intros parts md loops s r s' Hrun.
  { injection Hrun as <- <-. exists []. rewrite app_nil_r. by repeat split. }
  rewrite feedback_loop_unfold in Hrun.
  destruct (verify_sends d md parts.*1 s) as (rv & s1 & Hv & Hlog1).
  rewrite Hv in Hrun.
  pose proof (polishes_verify d md parts.*1) as Hp1.
  destruct rv as [fb|e]; cycle 1.
  { injection Hrun as <- <-. eexists. split; [exact Hlog1|]. by split. }
  cbv zeta in Hrun. case_bool_decide.
  { injection Hrun as <- <-. eexists. split; [exact Hlog1|]. split; [done|].
    intros o [= <-]. cbn [out_parts out_loops out_md]. split; [done|]. split; [lia|done]. }
  destruct (max_feedback_loops self <? loops + 1).
  { injection Hrun as <- <-. eexists. split; [exact Hlog1|]. split; [done|].
    intros o [= <-]. cbn [out_parts out_loops out_md]. split; [done|]. split; [lia|done]. }
  destruct (revise_step_sends d parts
              (if bool_decide (fb_status fb = Some abort)
               then forced_feedback fb parts else fb) s1)
    as (rp & s2 & new2 & Hstep & Hlog2 & Hsys2 & _ & Hkeys2).
  rewrite Hstep in Hrun. pose proof (polishes_revision _ Hsys2) as Hp2.
  destruct rp as [parts'|e]; cycle 1.
  { injection Hrun as <- <-. exists ([verify_request d md parts.*1] ++ new2).
    split; [by rewrite Hlog2, Hlog1, app_assoc|].
    split; [|done]. intros _. by rewrite polishes_app, Hp1, Hp2. }
  specialize (Hkeys2 _ eq_refl).
  destruct (merge_sends self d parts' s2) as (rm & s3 & new3 & Hmerge & Hlog3 & Hsys3).
  assert (Hnone : formatting self = "none" ->
                  rm = Ok (md_join (title self) parts') /\ polishes new3 = 0%nat).
  { intros Hf. rewrite (merge_none _ _ _ _ Hf) in Hmerge. injection Hmerge as <- <-.
    split; [done|]. assert (new3 = []) as ->; [|done].
    apply (app_inv_head (asked s2)). by rewrite <- Hlog3, app_nil_r. }
  rewrite Hmerge in Hrun.
  destruct rm as [md'|e]; cycle 1.
  { injection Hrun as <- <-.
    exists ([verify_request d md parts.*1] ++ new2 ++ new3).
    split; [by rewrite Hlog3, Hlog2, Hlog1, <- !app_assoc|].
    split; [|done]. intros Hf. destruct (Hnone Hf) as [_ Hp3].
    by rewrite !polishes_app, Hp1, Hp2, Hp3. }
  destruct (IH _ _ _ _ _ _ Hrun) as (new4 & Hlog4 & Hp4 & Ho).
  exists ([verify_request d md parts.*1] ++ new2 ++ new3 ++ new4).
  split; [by rewrite Hlog4, Hlog3, Hlog2, Hlog1, <- !app_assoc|].
  split.
  - intros Hf. destruct (Hnone Hf) as [_ Hp3].
    by rewrite !polishes_app, Hp1, Hp2, Hp3, (Hp4 Hf).
  - intros o Heq. destruct (Ho o Heq) as (Hk & Hl & Hmd).
    split; [congruence|]. split; [lia|].
    intros Hf _. apply Hmd; [exact Hf|]. destruct (Hnone Hf) as [Hrm _]. congruence.
Qed.

(** X24. The loop never adds, drops, renames or reorders sections: whenever
    it returns, the identities of the sections it returns are those it was
    entered with, position by position, and the loop counter has not gone
    down. *)
Theorem loop_keeps_sections fuel self d parts md loops s o s' :
  feedback_loop fuel self d parts md loops s = (Ok (Some o), s') ->
  (out_parts o).*1 = parts.*1 /\ loops <= out_loops o.
Proof.
  intros Hrun.
  destruct (feedback_loop_invariants self d fuel _ _ _ _ _ _ Hrun) as (new & _ & _ & Ho).
  destruct (Ho o eq_refl) as (Hk & Hl & _). by split.
Qed.

(** X25. Without polishing, the draft the loop returns is the deterministic
    merge of the sections it returns: entered with the merge of its sections
    and formatting mode "none", it ends with [out_md = md_join title
    out_parts]. *)
Theorem loop_draft_is_merge fuel self d parts loops s o s' :
  formatting self = "none" ->
  feedback_loop fuel self d parts (md_join (title self) parts) loops s
    = (Ok (Some o), s') ->
  out_md o = md_join (title self) (out_parts o).
Proof.
  intros Hf Hrun.
  destruct (feedback_loop_invariants self d fuel _ _ _ _ _ _ Hrun) as (new & _ & _ & Ho).
  destruct (Ho o eq_refl) as (_ & _ & Hmd). by apply Hmd.
Qed.

(** X26. With formatting mode "none" the loop never calls the formatter:
    whatever the run does, no request of its log is addressed to it. *)
Theorem loop_never_polishes_in_mode_none fuel self d parts md loops s :
  formatting self = "none" ->
  exists new,
    asked (feedback_loop fuel self d parts md loops s).2 = asked s ++ new /\
    polishes new = 0%nat.
Proof.
  intros Hf.
  destruct (feedback_loop fuel self d parts md loops s) as [r s'] eqn:Hrun.
  destruct (feedback_loop_invariants self d fuel _ _ _ _ _ _ Hrun) as (new & Hlog & Hp & _).
  exists new. split; [exact Hlog|]. by apply Hp.
Qed.

(** X27. A verdict that asks for revision and names no target revises
    everything: with budget left, every section is regenerated with the raw
    feedback, the sections are merged again, and the loop continues at
    [loops + 1]. *)
Theorem untargeted_verdict_revises_all fuel self d parts md loops s fb s1 :
  FeedbackFactCheckerAgent.verify (Delegator.client d) (Delegator.file_uri d)
    md parts.*1 s = (Ok fb, s1) ->
  fb_status fb <> Some abort ->
  fb_status fb <> Some ok ->
  truthy (fb_targets fb) = false ->
  loops + 1 <= max_feedback_loops self ->
  exists parts' s2,
    revise_parts d parts (fb_raw fb) s1 = (Ok parts', s2) /\
    parts'.*1 = parts.*1 /\
    asked s2 = asked s1 ++ (full_request d (fb_raw fb) <$> parts) /\
    feedback_loop (S fuel) self d parts md loops s =
      (let* md' := merge self d parts' in
       feedback_loop fuel self d parts' md' (loops + 1)) s2.
Proof.
  intros Hverify Hna Hno Ht Hbudget.
  destruct (revise_parts_sends d parts (fb_raw fb) s1) as (parts' & s2 & Hrun & Hk & Hlog).
  exists parts', s2. split; [exact Hrun|]. split; [exact Hk|]. split; [exact Hlog|].
  rewrite feedback_loop_unfold, Hverify. cbv zeta.
  rewrite (bool_decide_eq_false_2 (fb_status fb = Some abort)) by done.
  rewrite (bool_decide_eq_false_2 (fb_status fb = Some ok)) by done.
  replace (max_feedback_loops self <? loops + 1) with false
    by (symmetry; apply Z.ltb_ge; lia).
  unfold revise_step. rewrite Ht, Hrun.
  unfold bind. by destruct (merge self d parts' s2) as [[md'|e] s3].
Qed.

(** X28. Once the budget is used up, a verdict that is not an approval, an
    abort included, ends the loop with the sections and the draft as they
    are: nothing is regenerated or merged after the verification, and the
    counter is one past the budget. *)
Theorem exhausted_budget_keeps_draft fuel self d parts md loops s fb s1 :
  FeedbackFactCheckerAgent.verify (Delegator.client d) (Delegator.file_uri d)
    md parts.*1 s = (Ok fb, s1) ->
  fb_status fb <> Some ok ->
  max_feedback_loops self < loops + 1 ->
  feedback_loop (S fuel) self d parts md loops s =
    (Ok (Some {| out_parts := parts; out_md := md; out_loops := loops + 1 |}), s1).
Proof.
  intros Hverify Hno Hmax. rewrite feedback_loop_unfold, Hverify. cbv zeta.
  assert (Hfb : fb_status (if bool_decide (fb_status fb = Some abort)
                           then forced_feedback fb parts else fb) <> Some ok).
  { case_bool_decide; [discriminate|done]. }
  rewrite (bool_decide_eq_false_2 _ Hfb).
  by replace (max_feedback_loops self <? loops + 1) with true
    by (symmetry; apply Z.ltb_lt; lia).
Qed.

End CoordinatorEdges.

(** ** The upload side of the client *)

Section WaitForActive.
Context `{Files.Service}.
Import Files.

Lemma is_active_state refreshed :
  is_active refreshed = true <-> get_attr_safe refreshed "state" JNull = JStr "ACTIVE".
Proof.
  unfold is_active. destruct (get_attr_safe refreshed "state" JNull); try done.
  rewrite String.eqb_eq. split; [by intros ->|by intros [= ->]].
Qed.

(** X29. [wait_for_active] hands back nothing but an active file: whatever
    the service and the clock do, an object it returns has the state
    "ACTIVE". *)
Theorem wait_for_active_returns_active fuel file_obj timeout_sec w refreshed w' :
  wait_for_active fuel file_obj timeout_sec w = (Active refreshed, w') ->
  get_attr_safe refreshed "state" JNull = JStr "ACTIVE".
Proof.
  unfold wait_for_active. destruct (now w) as [start w0].
  generalize (get_attr_safe file_obj "name" JNull). intros name. revert w0.
  induction fuel as [|fuel IH]; intros w0; [discriminate|]. simpl.
  destruct (files_get name w0) as [[r|e] w1]; [|discriminate].
  destruct (is_active r) eqn:Hr.
  - intros [= <- <-]. by apply is_active_state.
  - destruct (now w1) as [t w2].
    destruct (float_gt_Z (PrimFloat.sub t start) timeout_sec); [discriminate|].
    apply IH.
Qed.

(** X30. The state is tested before the clock: a file that is active on the
    first poll is returned whatever the timeout is, zero and negative
    included, after one reading of the clock and one call to the service,
    with no sleep. *)
Theorem wait_for_active_first_poll fuel file_obj timeout_sec w start w0 refreshed w1 :
  now w = (start, w0) ->
  files_get (get_attr_safe file_obj "name" JNull) w0 = (Ok refreshed, w1) ->
  get_attr_safe refreshed "state" JNull = JStr "ACTIVE" ->
  wait_for_active (S fuel) file_obj timeout_sec w = (Active refreshed, w1).
Proof.
  intros Hnow Hget Hstate. unfold wait_for_active. rewrite Hnow. simpl.
  rewrite Hget. by rewrite (proj2 (is_active_state refreshed) Hstate).
Qed.

End WaitForActive.

(** ** The further properties on the examples *)

Lemma verify_non_object_raises_witness :
  (FeedbackFactCheckerAgent.verify (H := Samples.builtins) Example.client0 "uri" "draft"
     ["A"] (Example.start [Example.says Samples.empty_list_text])).1 =
  Raise (Exception AttributeError "'list' object has no attribute 'get'").
Proof.
  erewrite (verify_non_object_raises (H := Samples.builtins) Example.client0 "uri"
              "draft" ["A"] _ Samples.empty_list_text _ (JArr []));
    [reflexivity|reflexivity|reflexivity|discriminate].
Defined.

Lemma decide_needs_revision_band_witness :
  FeedbackFactCheckerAgent._decide
    (JObj [("decision", JStr "revise"); ("overlap_ratio", JFloat 0.75);
           ("hallucination_count", JInt 2)]) =
  Ok {| d_status := needs_revision; d_overlap_ratio := 0.75;
        d_hallucination_count := 2 |}.
Proof.
  apply (decide_needs_revision_band _ 0.75 2 "revise");
    try reflexivity; try discriminate. right. lia.
Defined.

Lemma decide_missing_fields_witness :
  FeedbackFactCheckerAgent._decide (JObj [("reasons", JArr [])]) =
  Ok {| d_status := needs_revision; d_overlap_ratio := 0; d_hallucination_count := 0 |}.
Proof.
  apply (decide_missing_fields [("reasons", JArr [])]);
    (reflexivity || discriminate).
Defined.

Lemma decide_unbounded_count_raises_witness :
  exists e,
    FeedbackFactCheckerAgent._decide
      (JObj [("decision", JStr "revise"); ("hallucination_count", JFloat infinity)])
      = Raise e /\
    (exn_type e = OverflowError \/ exn_type e = ValueError).
Proof.
  apply (decide_unbounded_count_raises _ 0 infinity); [reflexivity|reflexivity|by left].
Defined.

Lemma verify_passes_targets_through_witness :
  (FeedbackFactCheckerAgent.verify (H := Samples.builtins) Example.client0 "uri" "draft"
     ["A"] (Example.start [Example.says Samples.names_B_text])).1 =
  Ok {| fb_status := Some needs_revision; fb_raw := Samples.names_B_text;
        fb_targets := JArr [JStr "B"]; fb_metrics := Some (0%float, 0) |}.
Proof.
  erewrite (verify_passes_targets_through (H := Samples.builtins) Example.client0 "uri"
              "draft" ["A"] _ Samples.names_B_text _ _
              {| d_status := needs_revision; d_overlap_ratio := 0;
                 d_hallucination_count := 0 |} (JArr [JStr "B"]));
    reflexivity.
Defined.

Lemma reasons_not_iterable_witness :
  exists e,
    FeedbackFactCheckerAgent.normalize_targets Samples.numeric_reasons_payload ["A"]
      = Raise e /\ exn_type e = TypeError.
Proof.
  eexists. split.
  - apply (reasons_not_iterable _ ["A"] (JInt 7)); reflexivity.
  - reflexivity.
Defined.

Lemma md_join_keeps_ascending_order_witness :
  md_sections Example.parts3 = section_block <$> Example.parts3.
Proof.
  apply (md_join_keeps_ascending_order Example.parts3).
  repeat constructor; reflexivity.
Defined.

Lemma generation_never_raises_witness :
  exists parts,
    Delegator.run_parallel_generation Example.delegator0 Example.plans3
      (Coordinator.pool_size Example.plans3) Example.pool3 = Ok parts /\
    length parts = 3%nat.
Proof.
  destruct (generation_never_raises Example.delegator0 Example.plans3 Example.pool3)
    as (_ & parts & Hrun & Hlen & _).
  - unfold well_formed_pool. simpl.
    apply (Permutation_trans (l' := [0; 2; 1]%nat)); [apply perm_swap|].
    apply perm_skip, perm_swap.
  - by exists parts.
Defined.


Lemma main_normalisation_is_redundant_witness :
  Coordinator.formatting
    (Main.coordinator_of
       {| Main.command := "build"; Main.pdf_path := "a.pdf"; Main.title := "T";
          Main.api_key := "k"; Main.model := "gemini-2.5-flash";
          Main.max_feedback_loops := 2; Main.length_level := 12;
          Main.difficulty_level := 0; Main.formatting := "NONE" |}) = "none".
Proof.
  rewrite main_normalisation_is_redundant; reflexivity.
Defined.

Lemma targeted_revision_requests_witness :
  exists out s',
    Delegator.revise_selected_parts Example.delegator0 Example.parts3 Example.names_A
      (Example.start [Example.says "a1"]) = (Ok out, s') /\
    length (asked s') = 1%nat.
Proof.
  destruct (targeted_revision_requests Example.delegator0 Example.parts3 Example.names_A
              ["A"] (<["A" := "cite the source"]> ∅)
              (Example.start [Example.says "a1"])) as (out & s' & Hrun & _ & Hlog).
  - reflexivity.
  - discriminate.
  - exists out, s'. split; [exact Hrun|]. by rewrite Hlog.
Defined.

Lemma targets_not_iterable_raise_witness :
  (Delegator.revise_selected_parts Example.delegator0 Example.parts2
     (Samples.feedback_with_targets (JInt 3)) (Example.start [Example.says "a1"])).1 =
  Raise (Exception TypeError "'int' object is not iterable").
Proof.
  erewrite (targets_not_iterable_raise Example.delegator0 Example.parts2); reflexivity.
Defined.

Lemma targets_string_or_object_witness :
  Delegator.targets_of (Samples.feedback_with_targets (JStr "AB")) = Ok (["A"; "B"], ∅).
Proof.
  destruct (targets_string_or_object (Some needs_revision) "raw feedback" None)
    as [Hstr _].
  apply (Hstr "AB"). discriminate.
Defined.

Lemma loop_approved_first_check_witness :
  (Coordinator.feedback_loop 1 Example.coordinator2 Example.delegator0 Example.parts2
     (md_join "T" Example.parts2) 0 (Example.start [Example.says "fine, pass"])).1 =
  Ok (Some {| Coordinator.out_parts := Example.parts2;
              Coordinator.out_md := md_join "T" Example.parts2;
              Coordinator.out_loops := 0 |}).
Proof.
  edestruct (loop_approved_first_check 0 Example.coordinator2 Example.delegator0
               Example.parts2 (md_join "T" Example.parts2) 0
               (Example.start [Example.says "fine, pass"])) as [Hrun _];
    [reflexivity|reflexivity|].
  by rewrite Hrun.
Defined.

Lemma loop_keeps_sections_witness :
  match (Coordinator.feedback_loop 3 Example.coordinator2 Example.delegator0
           Example.parts2 (md_join "T" Example.parts2) 0
           (Example.start Samples.revision_script_responses)).1 with
  | Ok (Some o) => (Coordinator.out_parts o).*1 = ["A"; "B"] /\
                   0 <= Coordinator.out_loops o
  | _ => False
  end.
Proof.
  destruct (Coordinator.feedback_loop 3 Example.coordinator2 Example.delegator0
              Example.parts2 (md_join "T" Example.parts2) 0
              (Example.start Samples.revision_script_responses)) as [r s'] eqn:E.
  destruct r as [[o|]|e]; simpl.
  - exact (loop_keeps_sections _ _ _ _ _ _ _ _ _ E).
  - vm_compute in E. discriminate E.
  - vm_compute in E. discriminate E.
Defined.

Lemma loop_draft_is_merge_witness :
  match (Coordinator.feedback_loop 3 Example.coordinator2 Example.delegator0
           Example.parts2 (md_join "T" Example.parts2) 0
           (Example.start Samples.revision_script_responses)).1 with
  | Ok (Some o) => Coordinator.out_md o = md_join "T" (Coordinator.out_parts o)
  | _ => False
  end.
Proof.
  destruct (Coordinator.feedback_loop 3 Example.coordinator2 Example.delegator0
              Example.parts2 (md_join "T" Example.parts2) 0
              (Example.start Samples.revision_script_responses)) as [r s'] eqn:E.
  destruct r as [[o|]|e]; simpl.
  - exact (loop_draft_is_merge 3 Example.coordinator2 Example.delegator0 Example.parts2
             0 _ o s' eq_refl E).
  - vm_compute in E. discriminate E.
  - vm_compute in E. discriminate E.
Defined.

Lemma loop_never_polishes_in_mode_none_witness :
  exists new,
    asked (Coordinator.feedback_loop 3 Example.coordinator2 Example.delegator0
             Example.parts2 (md_join "T" Example.parts2) 0 (Example.start Samples.revision_script_responses)).2
      = asked (Example.start Samples.revision_script_responses) ++ new /\
    polishes new = 0%nat.
Proof.
  apply (loop_never_polishes_in_mode_none 3 Example.coordinator2 Example.delegator0).
  reflexivity.
Defined.

Lemma untargeted_verdict_revises_all_witness :
  (Coordinator.feedback_loop 3 Example.coordinator2 Example.delegator0 Example.parts2
     (md_join "T" Example.parts2) 0 (Example.start Samples.revision_script_responses)).1 =
  Ok (Some {| Coordinator.out_parts := [("A", "a1"); ("B", "b1")];
              Coordinator.out_md := md_join "T" [("A", "a1"); ("B", "b1")];
              Coordinator.out_loops := 1 |}).
Proof.
  edestruct (untargeted_verdict_revises_all 2 Example.coordinator2 Example.delegator0
               Example.parts2 (md_join "T" Example.parts2) 0 (Example.start Samples.revision_script_responses))
    as (parts' & s2 & Hrun & _ & _ & Hloop).
  - reflexivity.
  - discriminate.
  - discriminate.
  - reflexivity.
  - simpl. lia.
  - rewrite Hloop. vm_compute in Hrun. injection Hrun as <- <-. reflexivity.
Defined.

Lemma exhausted_budget_keeps_draft_witness :
  (Coordinator.feedback_loop 1 Example.coordinator0 Example.delegator0 Example.parts2
     (md_join "T" Example.parts2) 0
     (Example.start [Example.says "abort: nothing here is in the source"])).1 =
  Ok (Some {| Coordinator.out_parts := Example.parts2;
              Coordinator.out_md := md_join "T" Example.parts2;
              Coordinator.out_loops := 1 |}).
Proof.
  erewrite (exhausted_budget_keeps_draft 0 Example.coordinator0 Example.delegator0
              Example.parts2 (md_join "T" Example.parts2) 0);
    [reflexivity|reflexivity|discriminate|simpl; lia].
Defined.

Lemma wait_for_active_returns_active_witness :
  Files.get_attr_safe (Samples.file_in_state "ACTIVE") "state" JNull = JStr "ACTIVE".
Proof.
  eapply (wait_for_active_returns_active (H := Samples.scripted_files) 5
            (Samples.file_in_state "PROCESSING") 180
            ([Ok (Samples.file_in_state "PROCESSING");
              Ok (Samples.file_in_state "ACTIVE")], 0%float)).
  reflexivity.
Defined.

Lemma wait_for_active_first_poll_witness :
  (Files.wait_for_active (H := Samples.scripted_files) 1
     (Samples.file_in_state "PROCESSING") (-5)
     ([Ok (Samples.file_in_state "ACTIVE")], 0%float)).1 =
  Files.Active (Samples.file_in_state "ACTIVE").
Proof.
  erewrite (wait_for_active_first_poll (H := Samples.scripted_files) 0
              (Samples.file_in_state "PROCESSING") (-5)); reflexivity.
Defined.
